(** * Polestar entity adapter: descriptors, attribute lookup, identifiers

    A shallow embedding of [custom_components/polestar_api/entity.py].

    Python objects are modelled by what the code observes of them: the
    truth value that [bool(obj)] yields and the attributes that
    [hasattr]/[getattr] see.  Methods of [PolestarEntity] run in a small
    state-and-exception monad over a world holding the shared coordinator
    object, the entity itself and the log. *)

From Stdlib Require Import ZArith.
From stdpp Require Import base option gmap strings list fin_maps.

Local Open Scope string_scope.

(** ** Python values *)

(** The scalar values a sensor may carry, following the annotation
    [str | int | float | bool | date | datetime] (plus [None]).  A float is
    kept as its binary64 bit pattern. *)
Inductive pyval : Type :=
  | VNone
  | VBool (b : bool)
  | VInt (z : Z)
  | VFloat (bits : Z)
  | VStr (s : string)
  | VDate (year month day : Z)
  | VDatetime (year month day hour minute second microsecond : Z).

#[global] Instance pyval_eq_dec : EqDecision pyval.
Proof. solve_decision. Defined.

(** [value is None] *)
Definition is_none (v : pyval) : bool :=
  match v with VNone => true | _ => false end.

(** [bool(s)] for a string: only the empty string is falsy. *)
Definition str_bool (s : string) : bool :=
  match s with EmptyString => false | String _ _ => true end.

(** A Python [dict] with string keys. *)
Abbreviation dict V := (gmap string V).

(** [bool(d)] for a dict: only the empty dict is falsy. *)
Definition dict_bool {V} (d : dict V) : bool := bool_decide (d ≠ ∅).

(** An arbitrary Python object as seen by this module: its truth value and
    its attributes. *)
Record PyObject : Type := {
  obj_bool : bool;
  obj_attrs : dict pyval;
}.

(** [hasattr(o, name)] *)
Definition hasattr (o : PyObject) (name : string) : bool :=
  bool_decide (is_Some (obj_attrs o !! name)).

(** [getattr(o, name, None)] *)
Definition getattr_or_None (o : PyObject) (name : string) : pyval :=
  default VNone (obj_attrs o !! name).

(** ** Exceptions and outcomes *)

Inductive exn : Type :=
  | ValueError (msg : string)
  | PolestarEntityDataSourceException.

Inductive outcome (A : Type) : Type :=
  | Returned (a : A)
  | Raised (e : exn).
Arguments Returned {A} a.
Arguments Raised {A} e.

(** ** Entity descriptors *)

Inductive PolestarEntityDataSource : Type :=
  | INFORMATION
  | ODOMETER
  | BATTERY
  | HEALTH.

(** The string value of each [StrEnum] member. *)
Definition data_source_value (s : PolestarEntityDataSource) : string :=
  match s with
  | INFORMATION => "car_information_data"
  | ODOMETER => "car_odometer_data"
  | BATTERY => "car_battery_data"
  | HEALTH => "car_health_data"
  end.

Record PolestarEntityDescription : Type := {
  key : string;
  data_source : option PolestarEntityDataSource;
  data_state_attribute : option string;
  data_state_fn : option (pyval → pyval);
  data_extra_state_attributes : option (dict string);
}.

(** Truth values of the optional descriptor fields. *)
Definition data_source_bool (o : option PolestarEntityDataSource) : bool :=
  match o with
  | None => false
  | Some s => str_bool (data_source_value s)
  end.

Definition opt_str_bool (o : option string) : bool :=
  match o with None => false | Some s => str_bool s end.

Definition opt_dict_bool {V} (o : option (dict V)) : bool :=
  match o with None => false | Some d => dict_bool d end.

(** [PolestarEntityDescription.__post_init__] *)
Definition post_init (self : PolestarEntityDescription) : outcome unit :=
  if negb (Bool.eqb (data_source_bool (data_source self))
                    (opt_str_bool (data_state_attribute self)))
  then Raised (ValueError
         "Both data_source and data_attribute must be provided together")
  else Returned tt.

(** Construction of a descriptor: the dataclass fills the fields, then runs
    [__post_init__]. *)
Definition new_PolestarEntityDescription
    (k : string)
    (src : option PolestarEntityDataSource)
    (attr : option string)
    (fn : option (pyval → pyval))
    (extra : option (dict string)) : outcome PolestarEntityDescription :=
  let self := {| key := k; data_source := src; data_state_attribute := attr;
                 data_state_fn := fn; data_extra_state_attributes := extra |} in
  match post_init self with
  | Returned _ => Returned self
  | Raised e => Raised e
  end.

(** A descriptor that exists went through [__post_init__] without raising. *)
Definition constructed (d : PolestarEntityDescription) : Prop :=
  post_init d = Returned tt.

(** ** The coordinator and the entity *)

(** The coordinator object as the entity reads it.  [short_id] is what
    [coordinator.get_short_id()] returns; [attrs] holds the attributes that
    [getattr(coordinator, data_source, None)] may find, each either [None]
    or an object. *)
Record PolestarCoordinator : Type := {
  vin : string;
  model : string;
  name : string;
  short_id : string;
  attrs : dict (option PyObject);
}.

(** [getattr(coordinator, name, None)]: a missing attribute and an attribute
    holding [None] both give [None]. *)
Definition coordinator_getattr (c : PolestarCoordinator) (n : string)
    : option PyObject :=
  default None (attrs c !! n).

(** [not data] for the looked-up sub-object. *)
Definition data_bool (data : option PyObject) : bool :=
  match data with None => false | Some o => obj_bool o end.

Record DeviceInfo : Type := {
  identifiers : gset (string * string);
  manufacturer : string;
  device_model : string;
  device_name : string;
  serial_number : string;
}.

(** Instance attributes of a [PolestarEntity].  [_attr_extra_state_attributes]
    is [None] while the attribute has not been set on the instance, which is
    what [hasattr(self, "_attr_extra_state_attributes")] tests. *)
Record PolestarEntity : Type := {
  entity_description : PolestarEntityDescription;
  entity_id : string;
  _attr_unique_id : string;
  _attr_translation_key : string;
  _attr_device_info : DeviceInfo;
  _attr_extra_state_attributes : option (dict pyval);
}.

Inductive log_level : Type := DEBUG | ERROR.

Record log_record : Type := {
  level : log_level;
  msg : string;
  args : list string;
}.

(** The state the methods run against: the shared coordinator object, the
    entity, the log written so far and the number of state writes pushed to
    the host by [CoordinatorEntity._handle_coordinator_update]. *)
Record world : Type := {
  w_coordinator : PolestarCoordinator;
  w_self : PolestarEntity;
  w_log : list log_record;
  w_state_writes : nat;
}.

(** ** The method monad *)

Definition M (A : Type) : Type := world → outcome A * world.

Definition ret {A} (a : A) : M A := λ w, (Returned a, w).

Definition bind {A B} (m : M A) (k : A → M B) : M B :=
  λ w, match m w with
       | (Returned a, w') => k a w'
       | (Raised e, w') => (Raised e, w')
       end.

Definition raise {A} (e : exn) : M A := λ w, (Raised e, w).

Declare Scope method_scope.
Delimit Scope method_scope with method.
Notation "x <~ m ;; k" := (bind m (λ x, k))
  (at level 100, m at next level, right associativity) : method_scope.
Notation "m ;;; k" := (bind m (λ _, k))
  (at level 100, right associativity) : method_scope.
Local Open Scope method_scope.

(** [self.coordinator] *)
Definition read_coordinator : M PolestarCoordinator :=
  λ w, (Returned (w_coordinator w), w).

(** [self] *)
Definition read_self : M PolestarEntity :=
  λ w, (Returned (w_self w), w).

(** [_LOGGER.debug] / [_LOGGER.error] *)
Definition logger (lvl : log_level) (fmt : string) (a : list string) : M unit :=
  λ w, (Returned tt,
        {| w_coordinator := w_coordinator w; w_self := w_self w;
           w_log := w_log w ++ [{| level := lvl; msg := fmt; args := a |}];
           w_state_writes := w_state_writes w |}).

(** [self._attr_extra_state_attributes = d] *)
Definition set_attr_extra_state_attributes (d : dict pyval) : M unit :=
  λ w, let s := w_self w in
       (Returned tt,
        {| w_coordinator := w_coordinator w;
           w_self := {| entity_description := entity_description s;
                        entity_id := entity_id s;
                        _attr_unique_id := _attr_unique_id s;
                        _attr_translation_key := _attr_translation_key s;
                        _attr_device_info := _attr_device_info s;
                        _attr_extra_state_attributes := Some d |};
           w_log := w_log w;
           w_state_writes := w_state_writes w |}).

(** [super()._handle_coordinator_update()]: the host framework writes the
    entity state out. *)
Definition super_handle_coordinator_update : M unit :=
  λ w, (Returned tt,
        {| w_coordinator := w_coordinator w; w_self := w_self w;
           w_log := w_log w; w_state_writes := S (w_state_writes w) |}).

(** A [for] loop over a list, threading an accumulator. *)
Fixpoint for_each {A B} (body : B → A → M B) (acc : B) (l : list A) : M B :=
  match l with
  | [] => ret acc
  | x :: l' => acc' <~ body acc x ;; for_each body acc' l'
  end.

(** ** Methods of [PolestarEntity] *)

(** One iteration of the loop of [get_extra_state_attributes]. *)
Definition extra_state_attribute_step
    (src : PolestarEntityDataSource) (eid : string) (data : PyObject)
    (res : dict pyval) (item : string * string) : M (dict pyval) :=
  let '(k, data_attribute) := item in
  if negb (hasattr data data_attribute) then
    logger ERROR "Invalid extra state attribute %s.%s for entity %s"
           [data_source_value src; data_attribute; eid] ;;;
    ret (<[k := VNone]> res)
  else
    let value := getattr_or_None data data_attribute in
    (if is_none value then
       logger DEBUG "%s.%s not available for entity %s"
              [data_source_value src; data_attribute; eid]
     else ret tt) ;;;
    ret (<[k := value]> res).

(** [PolestarEntity.get_extra_state_attributes]; a bare [return] gives
    [None].  The loop visits the items in the order of [map_to_list], which
    need not be the insertion order of the Python dict: the dict returned
    does not depend on it, the order of the log records does. *)
Definition get_extra_state_attributes : M (option (dict pyval)) :=
  self <~ read_self ;;
  let d := entity_description self in
  match data_source d, data_extra_state_attributes d with
  | Some src, Some extra =>
      if negb (str_bool (data_source_value src) && dict_bool extra) then
        ret None
      else
        c <~ read_coordinator ;;
        match coordinator_getattr c (data_source_value src) with
        | None =>
            logger DEBUG "%s not available for entity %s"
                   [data_source_value src; entity_id self] ;;;
            ret None
        | Some data =>
            res <~ for_each
                     (extra_state_attribute_step src (entity_id self) data)
                     ∅ (map_to_list extra) ;;
            ret (Some res)
        end
  | _, _ => ret None
  end.

(** [PolestarEntity.get_native_value]; a bare [return] gives [None]. *)
Definition get_native_value : M pyval :=
  self <~ read_self ;;
  let d := entity_description self in
  match data_source d, data_state_attribute d with
  | Some src, Some attr =>
      if negb (str_bool (data_source_value src) && str_bool attr) then
        raise PolestarEntityDataSourceException
      else
        c <~ read_coordinator ;;
        let data := coordinator_getattr c (data_source_value src) in
        match data with
        | Some o =>
            if negb (data_bool data) then
              logger DEBUG "%s not available for entity %s"
                     [data_source_value src; entity_id self] ;;;
              ret VNone
            else if negb (hasattr o attr) then
              logger ERROR "Invalid state attribute %s.%s for entity %s"
                     [data_source_value src; attr; entity_id self] ;;;
              ret VNone
            else
              let value := getattr_or_None o attr in
              if is_none value then
                logger DEBUG "%s.%s not available for entity %s"
                       [data_source_value src; attr; entity_id self] ;;;
                ret VNone
              else
                ret (match data_state_fn d with
                     | Some f => f value
                     | None => value
                     end)
        | None =>
            logger DEBUG "%s not available for entity %s"
                   [data_source_value src; entity_id self] ;;;
            ret VNone
        end
  | _, _ => raise PolestarEntityDataSourceException
  end.

(** [r or {}] where [r] is [None] or a dict: a falsy [r] gives a fresh empty
    dict. *)
Definition or_empty_dict (r : option (dict pyval)) : dict pyval :=
  if opt_dict_bool r then default ∅ r else ∅.

(** [PolestarEntity._handle_coordinator_update] *)
Definition _handle_coordinator_update : M unit :=
  self <~ read_self ;;
  (if bool_decide (is_Some (_attr_extra_state_attributes self)) then
     r <~ get_extra_state_attributes ;;
     set_attr_extra_state_attributes (or_empty_dict r)
   else ret tt) ;;;
  super_handle_coordinator_update.

Section Init.

(** [DOMAIN] comes from [const.py]. *)
Variable DOMAIN : string.

(** The assignments of [PolestarEntity.__init__] up to and including
    [_attr_device_info]: formatted strings are concatenations, since every
    interpolated value is a [str]. *)
Definition init_attributes (coordinator : PolestarCoordinator)
    (description : PolestarEntityDescription) : PolestarEntity :=
  {| entity_description := description;
     entity_id :=
       DOMAIN ++ ".polestar_" ++ short_id coordinator ++ "_"
              ++ key description;
     _attr_unique_id := "polestar_" ++ vin coordinator ++ "_" ++ key description;
     _attr_translation_key := "polestar_" ++ key description;
     _attr_device_info :=
       {| identifiers := {[ (DOMAIN, vin coordinator) ]};
          manufacturer := "Polestar";
          device_model := model coordinator;
          device_name := name coordinator;
          serial_number := vin coordinator |};
     _attr_extra_state_attributes := None |}.

(** [PolestarEntity.__init__], run against the coordinator it is handed,
    the log [lg] written so far and [n] earlier state writes; the result is
    the world holding the new entity. *)
Definition PolestarEntity_init (coordinator : PolestarCoordinator)
    (description : PolestarEntityDescription)
    (lg : list log_record) (n : nat) : outcome unit * world :=
  let w := {| w_coordinator := coordinator;
              w_self := init_attributes coordinator description;
              w_log := lg; w_state_writes := n |} in
  (self <~ read_self ;;
   if opt_dict_bool (data_extra_state_attributes (entity_description self))
   then
     r <~ get_extra_state_attributes ;;
     set_attr_extra_state_attributes (or_empty_dict r)
   else ret tt) w.

End Init.

(** The coordinator refreshes its data in place and then notifies the
    entity. *)
Definition refresh (c : PolestarCoordinator) : M unit :=
  λ w, (Returned tt,
        {| w_coordinator := c; w_self := w_self w; w_log := w_log w;
           w_state_writes := w_state_writes w |}).

Definition coordinator_update (c : PolestarCoordinator) : M unit :=
  refresh c ;;; _handle_coordinator_update.

(** A run of the entity: construction, then a series of coordinator
    refreshes, each followed by the update callback. *)
Definition lifecycle (DOMAIN : string) (coordinator : PolestarCoordinator)
    (description : PolestarEntityDescription) (lg : list log_record) (n : nat)
    (refreshes : list PolestarCoordinator) : outcome unit * world :=
  match PolestarEntity_init DOMAIN coordinator description lg n with
  | (Returned _, w) =>
      for_each (λ _ c, coordinator_update c) tt refreshes w
  | (Raised e, w) => (Raised e, w)
  end.

(** ** Vocabulary of the properties *)

(** The descriptor names source [src] and attribute [attr], both truthy. *)
Definition has_source_and_attribute (d : PolestarEntityDescription)
    (src : PolestarEntityDataSource) (attr : string) : Prop :=
  data_source d = Some src ∧ data_state_attribute d = Some attr
  ∧ str_bool attr = true.

(** The descriptor names source [src] and a non-empty mapping [extra]. *)
Definition has_source_and_extra (d : PolestarEntityDescription)
    (src : PolestarEntityDataSource) (extra : dict string) : Prop :=
  data_source d = Some src ∧ data_extra_state_attributes d = Some extra
  ∧ extra ≠ ∅.

(** [w'] differs from [w] at most by log records appended. *)
Definition only_logged (w w' : world) : Prop :=
  w_coordinator w' = w_coordinator w
  ∧ w_self w' = w_self w
  ∧ w_state_writes w' = w_state_writes w
  ∧ w_log w `prefix_of` w_log w'.

(** The transform of the descriptor applied to a value. *)
Definition transformed (d : PolestarEntityDescription) (v : pyval) : pyval :=
  match data_state_fn d with
  | Some f => f v
  | None => v
  end.

(** What the loop of [get_extra_state_attributes] computes, without the
    logging: every key of the mapping bound to the attribute it names. *)
Definition collect_attributes (data : PyObject) (acc : dict pyval)
    (items : list (string * string)) : dict pyval :=
  foldl (λ res item, <[item.1 := getattr_or_None data item.2]> res) acc items.

(** The value [get_extra_state_attributes] returns, as a function of the
    coordinator and the descriptor alone. *)
Definition extra_state_attributes_of (c : PolestarCoordinator)
    (d : PolestarEntityDescription) : option (dict pyval) :=
  match data_source d, data_extra_state_attributes d with
  | Some src, Some extra =>
      if dict_bool extra then
        match coordinator_getattr c (data_source_value src) with
        | Some data => Some (collect_attributes data ∅ (map_to_list extra))
        | None => None
        end
      else None
  | _, _ => None
  end.

(** The entity caches the current extra state attributes, as a dict. *)
Definition extra_state_attributes_fresh (w : world) : Prop :=
  _attr_extra_state_attributes (w_self w)
  = Some (default ∅ (extra_state_attributes_of
                       (w_coordinator w) (entity_description (w_self w)))).

(** ** Sample objects *)

Definition sample_battery : PyObject :=
  {| obj_bool := true;
     obj_attrs := list_to_map
       [("battery_charge_level_percentage", VInt 80);
        ("charging_status", VStr "Charging");
        ("estimated_range", VNone)] |}.

(** An object that is present but evaluates false, as an empty container
    does, and still carries attributes. *)
Definition sample_falsy_battery : PyObject :=
  {| obj_bool := false; obj_attrs := obj_attrs sample_battery |}.

Definition sample_coordinator (battery : option PyObject)
    : PolestarCoordinator :=
  {| vin := "YSMYKEAE7RB000000"; model := "Polestar 2";
     name := "Polestar 0000"; short_id := "0000";
     attrs := list_to_map
       [("car_battery_data", battery); ("car_odometer_data", None)] |}.

Definition sample_description_on (attr : string)
    (fn : option (pyval → pyval)) : PolestarEntityDescription :=
  {| key := "battery_charge_level";
     data_source := Some BATTERY;
     data_state_attribute := Some attr;
     data_state_fn := fn;
     data_extra_state_attributes :=
       Some (list_to_map [("status", "charging_status");
                          ("range", "estimated_range");
                          ("soc", "state_of_charge")]) |}.

Definition sample_description : PolestarEntityDescription :=
  sample_description_on "battery_charge_level_percentage" None.

Definition sample_world_of (d : PolestarEntityDescription)
    (battery : option PyObject) : world :=
  {| w_coordinator := sample_coordinator battery;
     w_self := init_attributes "polestar_api" (sample_coordinator battery) d;
     w_log := []; w_state_writes := 0 |}.

Definition sample_world (battery : option PyObject) : world :=
  sample_world_of sample_description battery.


(** ** Vocabulary of the further properties *)

(** The entity [s] with [_attr_extra_state_attributes] replaced. *)
Definition with_extra_state_attributes (s : PolestarEntity)
    (a : option (dict pyval)) : PolestarEntity :=
  {| entity_description := entity_description s;
     entity_id := entity_id s;
     _attr_unique_id := _attr_unique_id s;
     _attr_translation_key := _attr_translation_key s;
     _attr_device_info := _attr_device_info s;
     _attr_extra_state_attributes := a |}.

(** The entity after an update callback that saw coordinator [c]. *)
Definition entity_after_update (c : PolestarCoordinator) (s : PolestarEntity)
    : PolestarEntity :=
  match _attr_extra_state_attributes s with
  | Some _ =>
      with_extra_state_attributes s
        (Some (default ∅ (extra_state_attributes_of c (entity_description s))))
  | None => s
  end.

(** The coordinator state the last callback of a run saw. *)
Definition final_coordinator (c : PolestarCoordinator)
    (refreshes : list PolestarCoordinator) : PolestarCoordinator :=
  default c (last refreshes).

(** The coordinator after one of its attributes is assigned. *)
Definition coordinator_setattr (c : PolestarCoordinator) (n : string)
    (o : option PyObject) : PolestarCoordinator :=
  {| vin := vin c; model := model c; name := name c; short_id := short_id c;
     attrs := <[n := o]> (attrs c) |}.

(** The descriptor [d] with another transform. *)
Definition with_data_state_fn (d : PolestarEntityDescription)
    (fn : option (pyval → pyval)) : PolestarEntityDescription :=
  {| key := key d; data_source := data_source d;
     data_state_attribute := data_state_attribute d;
     data_state_fn := fn;
     data_extra_state_attributes := data_extra_state_attributes d |}.


(** The records a call appended to the log. *)
Definition logged (w w' : world) : list log_record :=
  drop (length (w_log w)) (w_log w').

#[global] Instance log_level_eq_dec : EqDecision log_level.
Proof. solve_decision. Defined.

(** The records one iteration of the loop of [get_extra_state_attributes]
    writes for the item [(k, data_attribute)]. *)
Definition extra_state_attribute_log (src : PolestarEntityDataSource)
    (eid : string) (data : PyObject) (item : string * string)
    : list log_record :=
  if negb (hasattr data item.2) then
    [{| level := ERROR;
        msg := "Invalid extra state attribute %s.%s for entity %s";
        args := [data_source_value src; item.2; eid] |}]
  else if is_none (getattr_or_None data item.2) then
    [{| level := DEBUG; msg := "%s.%s not available for entity %s";
        args := [data_source_value src; item.2; eid] |}]
  else [].

(** A mapped attribute name that the sub-object does not have. *)
Definition attribute_missing (data : PyObject) (item : string * string)
    : Prop :=
  obj_attrs data !! item.2 = None.

(** A mapped attribute name whose value is [None] or that is missing. *)
Definition attribute_unavailable (data : PyObject) (item : string * string)
    : Prop :=
  getattr_or_None data item.2 = VNone.

#[global] Instance attribute_missing_dec data item :
  Decision (attribute_missing data item).
Proof. unfold attribute_missing. apply _. Defined.

#[global] Instance attribute_unavailable_dec data item :
  Decision (attribute_unavailable data item).
Proof. unfold attribute_unavailable. apply _. Defined.

(** An odometer sub-object. *)
Definition sample_odometer : PyObject :=
  {| obj_bool := true;
     obj_attrs := list_to_map [("odometer_meters", VInt 12345000)] |}.

(** A descriptor configured with an empty extra-attribute mapping. *)
Definition sample_description_empty_mapping : PolestarEntityDescription :=
  {| key := "battery_charge_level";
     data_source := Some BATTERY;
     data_state_attribute := Some "battery_charge_level_percentage";
     data_state_fn := None;
     data_extra_state_attributes := Some ∅ |}.

(** ** Descriptor validation *)

Lemma data_source_bool_Some src : data_source_bool (Some src) = true.
Proof. by destruct src. Qed.

Lemma data_source_value_truthy src : str_bool (data_source_value src) = true.
Proof. by destruct src. Qed.

Lemma post_init_Returned d :
  post_init d = Returned tt
  ↔ data_source_bool (data_source d) = opt_str_bool (data_state_attribute d).
Proof.
  unfold post_init.
  destruct (data_source_bool _), (opt_str_bool _); simpl; split; congruence.
Qed.

Lemma constructed_has_both d src attr :
  constructed d → data_source d = Some src →
  data_state_attribute d = Some attr → has_source_and_attribute d src attr.
Proof.
  intros Hc Hs Ha. repeat split; try done.
  apply post_init_Returned in Hc.
  rewrite Hs, Ha, data_source_bool_Some in Hc. by simpl in Hc.
Qed.

(** C1.  A descriptor whose construction succeeds has a truthy
    [data_source] exactly when it has a truthy [data_state_attribute], and
    construction with exactly one of the two truthy raises [ValueError]. *)
Theorem post_init_source_attribute_together
    (k : string) (src : option PolestarEntityDataSource)
    (attr : option string) (fn : option (pyval → pyval))
    (extra : option (dict string)) :
  (∀ d, new_PolestarEntityDescription k src attr fn extra = Returned d →
        (data_source_bool (data_source d) = true
         ↔ opt_str_bool (data_state_attribute d) = true))
  ∧ (data_source_bool src ≠ opt_str_bool attr →
     ∃ m, new_PolestarEntityDescription k src attr fn extra
          = Raised (ValueError m)).
Proof.
  unfold new_PolestarEntityDescription, post_init; simpl. split.
  - intros d.
    destruct (data_source_bool src) eqn:Hs, (opt_str_bool attr) eqn:Ha;
      simpl; intros [= <-]; simpl; rewrite Hs, Ha; done.
  - intros Hne.
    destruct (data_source_bool src), (opt_str_bool attr); simpl;
      try done; eauto.
Qed.

Lemma post_init_source_attribute_together_witness :
  (data_source_bool (Some BATTERY) = true
   ↔ opt_str_bool (Some "battery_charge_level_percentage") = true)
  ∧ (∃ m, new_PolestarEntityDescription "range" (Some BATTERY) None None None
          = Raised (ValueError m))
  ∧ (∃ m, new_PolestarEntityDescription "range" None (Some "x") None None
          = Raised (ValueError m)).
Proof.
  split; [|split].
  - exact (proj1 (post_init_source_attribute_together
                    "battery" (Some BATTERY)
                    (Some "battery_charge_level_percentage") None None)
                 _ eq_refl).
  - apply (proj2 (post_init_source_attribute_together
                    "range" (Some BATTERY) None None None)).
    simpl. discriminate.
  - apply (proj2 (post_init_source_attribute_together
                    "range" None (Some "x") None None)).
    simpl. discriminate.
Defined.

(** ** The native value *)

Ltac run_method :=
  unfold bind, read_self, read_coordinator, raise, ret, logger,
         set_attr_extra_state_attributes, super_handle_coordinator_update;
  simpl.

(** When [get_native_value] raises, whatever the descriptor. *)
Lemma get_native_value_raises w :
  fst (get_native_value w) = Raised PolestarEntityDataSourceException
  ↔ data_source_bool (data_source (entity_description (w_self w)))
    && opt_str_bool (data_state_attribute (entity_description (w_self w)))
    = false.
Proof.
  unfold get_native_value. run_method.
  destruct (data_source _) as [src|]; [|done].
  destruct (data_state_attribute _) as [attr|];
    [|by rewrite data_source_bool_Some].
  rewrite data_source_bool_Some, data_source_value_truthy. simpl.
  destruct (str_bool attr); simpl; [|done].
  split; [|done].
  destruct (coordinator_getattr _ _) as [o|]; simpl; [|done].
  destruct (obj_bool o); simpl; [|done].
  destruct (hasattr o attr); simpl; [|done].
  by destruct (is_none _).
Qed.

(** C2.  On an entity whose descriptor was constructed,
    [get_native_value] raises [PolestarEntityDataSourceException] exactly
    when the descriptor lacks both the data source and the attribute name;
    with both present it does not raise it. *)
Theorem get_native_value_raises_iff_lacks_both (w : world) :
  constructed (entity_description (w_self w)) →
  (fst (get_native_value w) = Raised PolestarEntityDataSourceException
   ↔ data_source_bool (data_source (entity_description (w_self w))) = false
     ∧ opt_str_bool (data_state_attribute (entity_description (w_self w)))
       = false)
  ∧ (data_source_bool (data_source (entity_description (w_self w))) = true
     ∧ opt_str_bool (data_state_attribute (entity_description (w_self w)))
       = true →
     fst (get_native_value w) ≠ Raised PolestarEntityDataSourceException).
Proof.
  intros Hc. apply post_init_Returned in Hc.
  rewrite get_native_value_raises, <- Hc.
  destruct (data_source_bool _); simpl; intuition congruence.
Qed.

Lemma get_native_value_raises_iff_lacks_both_witness :
  (fst (get_native_value (sample_world (Some sample_battery)))
   = Raised PolestarEntityDataSourceException
   ↔ data_source_bool (Some BATTERY) = false
     ∧ opt_str_bool (Some "battery_charge_level_percentage") = false)
  ∧ (data_source_bool (Some BATTERY) = true
     ∧ opt_str_bool (Some "battery_charge_level_percentage") = true →
     fst (get_native_value (sample_world (Some sample_battery)))
     ≠ Raised PolestarEntityDataSourceException).
Proof.
  apply (get_native_value_raises_iff_lacks_both
           (sample_world (Some sample_battery))).
  reflexivity.
Defined.

(** The three ways a lookup comes back empty. *)
Lemma get_native_value_unavailable w src attr :
  has_source_and_attribute (entity_description (w_self w)) src attr →
  (∀ o, coordinator_getattr (w_coordinator w) (data_source_value src) = Some o →
        obj_bool o = false ∨ obj_attrs o !! attr = None
        ∨ obj_attrs o !! attr = Some VNone) →
  fst (get_native_value w) = Returned VNone.
Proof.
  intros (Hs & Ha & Ht) Ho.
  unfold get_native_value. run_method.
  rewrite Hs, Ha, Ht, data_source_value_truthy. simpl.
  destruct (coordinator_getattr _ _) as [o|]; simpl; [|done].
  destruct (Ho o eq_refl) as [Hb|[Hn|Hn]].
  - by rewrite Hb.
  - destruct (obj_bool o); simpl; [|done].
    unfold hasattr. rewrite Hn.
    rewrite bool_decide_eq_false_2; [done|]. by intros [? ?].
  - destruct (obj_bool o); simpl; [|done].
    unfold hasattr, getattr_or_None. rewrite Hn.
    rewrite bool_decide_eq_true_2; [done|]. by eexists.
Qed.

(** C3.  With both [data_source] and [data_state_attribute] in the
    descriptor, [get_native_value] returns [None] when the coordinator has
    no such sub-object, when the sub-object lacks the named field, and when
    the field holds [None]. *)
Theorem get_native_value_None_when_absent
    (w : world) (src : PolestarEntityDataSource) (attr : string) :
  has_source_and_attribute (entity_description (w_self w)) src attr →
  coordinator_getattr (w_coordinator w) (data_source_value src) = None
  ∨ (∃ o, coordinator_getattr (w_coordinator w) (data_source_value src)
          = Some o
          ∧ (obj_attrs o !! attr = None ∨ obj_attrs o !! attr = Some VNone)) →
  fst (get_native_value w) = Returned VNone.
Proof.
  intros Hd Habs. apply (get_native_value_unavailable w src attr Hd).
  intros o Ho. destruct Habs as [Hn|(o' & Ho' & Hf)].
  - congruence.
  - right. congruence.
Qed.

Lemma get_native_value_None_when_absent_witness :
  fst (get_native_value (sample_world None)) = Returned VNone
  ∧ fst (get_native_value
           (sample_world_of (sample_description_on "state_of_charge" None)
                            (Some sample_battery))) = Returned VNone
  ∧ fst (get_native_value
           (sample_world_of (sample_description_on "estimated_range" None)
                            (Some sample_battery))) = Returned VNone.
Proof.
  split; [|split].
  - apply (get_native_value_None_when_absent (sample_world None) BATTERY
             "battery_charge_level_percentage").
    + repeat split.
    + left. reflexivity.
  - apply (get_native_value_None_when_absent
             (sample_world_of (sample_description_on "state_of_charge" None)
                              (Some sample_battery))
             BATTERY "state_of_charge").
    + repeat split.
    + right. exists sample_battery. split; [reflexivity|]. left. reflexivity.
  - apply (get_native_value_None_when_absent
             (sample_world_of (sample_description_on "estimated_range" None)
                              (Some sample_battery))
             BATTERY "estimated_range").
    + repeat split.
    + right. exists sample_battery. split; [reflexivity|]. right. reflexivity.
Defined.

(** The value found, transformed, when nothing is missing and the sub-object
    is truthy. *)
Lemma get_native_value_available w src attr o v :
  has_source_and_attribute (entity_description (w_self w)) src attr →
  coordinator_getattr (w_coordinator w) (data_source_value src) = Some o →
  obj_bool o = true →
  obj_attrs o !! attr = Some v →
  v ≠ VNone →
  fst (get_native_value w)
  = Returned (transformed (entity_description (w_self w)) v).
Proof.
  intros (Hs & Ha & Ht) Ho Hb Hv Hnn.
  unfold get_native_value. run_method.
  rewrite Hs, Ha, Ht, data_source_value_truthy. simpl. rewrite Ho. simpl.
  rewrite Hb. simpl.
  unfold hasattr, getattr_or_None. rewrite Hv.
  rewrite bool_decide_eq_true_2 by (by eexists). simpl.
  by destruct v.
Qed.




(** ** Frame: the getters only log *)

#[global] Instance only_logged_refl : Reflexive only_logged.
Proof. intros w. by repeat split. Qed.

#[global] Instance only_logged_trans : Transitive only_logged.
Proof.
  intros w1 w2 w3 (Hc1 & Hs1 & Hn1 & Hl1) (Hc2 & Hs2 & Hn2 & Hl2).
  repeat split; try congruence. by etrans.
Qed.

Lemma logger_only_logged lvl fmt a w : only_logged w (snd (logger lvl fmt a w)).
Proof. repeat split. simpl. by apply prefix_app_r. Qed.

Lemma extra_state_attribute_step_run src eid data res item w :
  ∃ w', extra_state_attribute_step src eid data res item w
        = (Returned (<[item.1 := getattr_or_None data item.2]> res), w')
        ∧ only_logged w w'.
Proof.
  destruct item as [k a]. unfold extra_state_attribute_step. simpl.
  unfold hasattr, getattr_or_None.
  destruct (obj_attrs data !! a) as [v|] eqn:Hv; simpl.
  - destruct (is_none v); run_method; eexists; split; try done.
    apply (logger_only_logged DEBUG).
  - run_method. eexists; split; [done|]. apply (logger_only_logged ERROR).
Qed.

Lemma for_each_extra_state_attributes src eid data items :
  ∀ acc w, ∃ w',
    for_each (extra_state_attribute_step src eid data) acc items w
    = (Returned (collect_attributes data acc items), w')
    ∧ only_logged w w'.
Proof.
  induction items as [|item items IH]; intros acc w; simpl.
  - by exists w.
  - destruct (extra_state_attribute_step_run src eid data acc item w)
      as (w1 & Hstep & Hf1).
    destruct (IH (<[item.1 := getattr_or_None data item.2]> acc) w1)
      as (w2 & Hrest & Hf2).
    exists w2. unfold bind. rewrite Hstep, Hrest. split; [done|]. by etrans.
Qed.

Lemma collect_attributes_lookup data items :
  NoDup items.*1 →
  ∀ acc k,
    collect_attributes data acc items !! k
    = match (list_to_map items : dict string) !! k with
      | Some a => Some (getattr_or_None data a)
      | None => acc !! k
      end.
Proof.
  unfold collect_attributes.
  induction items as [|[k0 a0] items IH]; intros Hnd acc k.
  - by rewrite list_to_map_nil, lookup_empty.
  - rewrite fmap_cons in Hnd. apply NoDup_cons in Hnd as [Hk0 Hnd].
    cbn [foldl]. rewrite (IH Hnd), list_to_map_cons. cbn [fst snd] in *.
    destruct (decide (k = k0)) as [->|Hne].
    + rewrite lookup_insert_eq.
      rewrite (not_elem_of_list_to_map_1 _ _ Hk0). by rewrite lookup_insert_eq.
    + by rewrite !lookup_insert_ne by congruence.
Qed.

Lemma collect_attributes_fmap data (extra : dict string) :
  collect_attributes data ∅ (map_to_list extra)
  = getattr_or_None data <$> extra.
Proof.
  apply map_eq. intros k.
  rewrite collect_attributes_lookup by apply NoDup_fst_map_to_list.
  rewrite list_to_map_to_list, lookup_fmap, lookup_empty.
  by destruct (extra !! k).
Qed.

Lemma get_extra_state_attributes_run w :
  ∃ w', get_extra_state_attributes w
        = (Returned (extra_state_attributes_of
                       (w_coordinator w) (entity_description (w_self w))), w')
        ∧ only_logged w w'.
Proof.
  unfold get_extra_state_attributes, extra_state_attributes_of. run_method.
  destruct (data_source _) as [src|]; [|by exists w].
  destruct (data_extra_state_attributes _) as [extra|]; [|by exists w].
  rewrite data_source_value_truthy. simpl.
  destruct (dict_bool extra); simpl; [|by exists w].
  destruct (coordinator_getattr _ _) as [data|]; simpl.
  - destruct (for_each_extra_state_attributes src (entity_id (w_self w)) data
                (map_to_list extra) ∅ w) as (w' & Hrun & Hf).
    exists w'. by rewrite Hrun.
  - eexists; split; [done|]. apply (logger_only_logged DEBUG).
Qed.

Lemma get_native_value_only_logged w : only_logged w (snd (get_native_value w)).
Proof.
  unfold get_native_value. run_method.
  repeat (case_match; simpl; try reflexivity);
    apply (logger_only_logged _ _ _ w).
Qed.

(** C5.  [get_native_value] and [get_extra_state_attributes] leave the
    coordinator and the entity as they found them; the world after either
    call differs from the one before only by log records appended. *)
Theorem getters_only_log (w : world) :
  (w_coordinator (snd (get_native_value w)) = w_coordinator w
   ∧ w_self (snd (get_native_value w)) = w_self w
   ∧ w_state_writes (snd (get_native_value w)) = w_state_writes w
   ∧ w_log w `prefix_of` w_log (snd (get_native_value w)))
  ∧ (w_coordinator (snd (get_extra_state_attributes w)) = w_coordinator w
     ∧ w_self (snd (get_extra_state_attributes w)) = w_self w
     ∧ w_state_writes (snd (get_extra_state_attributes w)) = w_state_writes w
     ∧ w_log w `prefix_of` w_log (snd (get_extra_state_attributes w))).
Proof.
  split.
  - apply get_native_value_only_logged.
  - destruct (get_extra_state_attributes_run w) as (w' & -> & Hf). exact Hf.
Qed.

(** ** Extra state attributes *)

(** Without a source, or with no mapping or an empty one, the method returns
    [None] and [__init__] leaves [_attr_extra_state_attributes] unset. *)
Lemma get_extra_state_attributes_unconfigured w :
  data_source (entity_description (w_self w)) = None
  ∨ opt_dict_bool (data_extra_state_attributes (entity_description (w_self w)))
    = false →
  get_extra_state_attributes w = (Returned None, w).
Proof.
  unfold get_extra_state_attributes. run_method.
  destruct (data_source _) as [src|]; [|done].
  destruct (data_extra_state_attributes _) as [extra|]; [|done].
  rewrite data_source_value_truthy. simpl.
  intros [?|He]; [done|]. by rewrite He.
Qed.

(** C7, as amended.  With [data_source] and a non-empty
    [data_extra_state_attributes] mapping in the descriptor and a coordinator
    sub-object that is not [None],
    [get_extra_state_attributes] returns a dict with exactly the keys of the
    mapping; each key is bound to the value of the attribute it names on the
    sub-object, and to [None] when that attribute is absent or holds
    [None]. *)
Theorem get_extra_state_attributes_of_present_source
    (w : world) (src : PolestarEntityDataSource) (extra : dict string)
    (o : PyObject) :
  has_source_and_extra (entity_description (w_self w)) src extra →
  coordinator_getattr (w_coordinator w) (data_source_value src) = Some o →
  ∃ res : dict pyval,
    fst (get_extra_state_attributes w) = Returned (Some res)
    ∧ dom res = dom extra
    ∧ ∀ k a, extra !! k = Some a →
             res !! k = Some (match obj_attrs o !! a with
                              | Some v => v
                              | None => VNone
                              end).
Proof.
  intros (Hs & He & Hne) Ho.
  destruct (get_extra_state_attributes_run w) as (w' & -> & _).
  unfold extra_state_attributes_of. rewrite Hs, He, Ho.
  unfold dict_bool. rewrite bool_decide_eq_true_2 by done.
  rewrite collect_attributes_fmap.
  exists (getattr_or_None o <$> extra). split; [done|]. split.
  - apply dom_fmap_L.
  - intros k a Hk. rewrite lookup_fmap, Hk. done.
Qed.

Lemma get_extra_state_attributes_of_present_source_witness :
  ∃ res : dict pyval,
    fst (get_extra_state_attributes (sample_world (Some sample_battery)))
    = Returned (Some res)
    ∧ res !! "status" = Some (VStr "Charging")
    ∧ res !! "range" = Some VNone
    ∧ res !! "soc" = Some VNone
    ∧ res !! "battery_charge_level" = None.
Proof.
  destruct (get_extra_state_attributes_of_present_source
              (sample_world (Some sample_battery)) BATTERY
              (list_to_map [("status", "charging_status");
                            ("range", "estimated_range");
                            ("soc", "state_of_charge")])
              sample_battery)
    as (res & Hres & Hdom & Hval).
  - repeat split. by vm_compute.
  - reflexivity.
  - exists res. split; [exact Hres|].
    split; [exact (Hval "status" "charging_status" eq_refl)|].
    split; [exact (Hval "range" "estimated_range" eq_refl)|].
    split; [exact (Hval "soc" "state_of_charge" eq_refl)|].
    apply not_elem_of_dom. rewrite Hdom. by vm_compute.
Defined.

(** C7 as first stated fails: with an empty mapping the guard of
    [get_extra_state_attributes] returns [None], not a dict with the (empty)
    key set of the mapping, although the sub-object is there. *)
Lemma get_extra_state_attributes_empty_mapping :
  ¬ (∀ (w : world) (src : PolestarEntityDataSource) (extra : dict string)
       (o : PyObject),
       data_source (entity_description (w_self w)) = Some src →
       data_extra_state_attributes (entity_description (w_self w))
       = Some extra →
       coordinator_getattr (w_coordinator w) (data_source_value src) = Some o →
       ∃ res : dict pyval,
         fst (get_extra_state_attributes w) = Returned (Some res)
         ∧ dom res = dom extra
         ∧ ∀ k a, extra !! k = Some a →
                  res !! k = Some (match obj_attrs o !! a with
                                   | Some v => v
                                   | None => VNone
                                   end)).
Proof.
  intros H.
  destruct (H (sample_world_of sample_description_empty_mapping
                 (Some sample_battery))
              BATTERY ∅ sample_battery eq_refl eq_refl eq_refl)
    as (res & Hres & _).
  assert (fst (get_extra_state_attributes
                 (sample_world_of sample_description_empty_mapping
                    (Some sample_battery)))
          = Returned None) as Hnone by reflexivity.
  rewrite Hnone in Hres. discriminate Hres.
Qed.

(** ** Determinism and the two availability tests *)

(** The outcome of [get_native_value] is read off the descriptor and the
    coordinator; the log, the state writes and the other entity attributes
    play no part. *)
Lemma get_native_value_depends w1 w2 :
  entity_description (w_self w1) = entity_description (w_self w2) →
  w_coordinator w1 = w_coordinator w2 →
  fst (get_native_value w1) = fst (get_native_value w2).
Proof.
  intros Hd Hc. unfold get_native_value. run_method. rewrite Hd.
  destruct (data_source _) as [src|]; [|done].
  destruct (data_state_attribute _) as [attr|]; [|done].
  destruct (negb _); simpl; [done|]. rewrite Hc.
  repeat (case_match; simpl; try reflexivity).
Qed.

(** C8.  For a fixed descriptor and a fixed coordinator state, two calls
    of [get_native_value] have the same outcome, whatever else differs
    between the worlds they run in; in particular a second call right after
    a first one repeats its outcome. *)
Theorem get_native_value_deterministic (w1 w2 : world) :
  entity_description (w_self w1) = entity_description (w_self w2) →
  w_coordinator w1 = w_coordinator w2 →
  fst (get_native_value w1) = fst (get_native_value w2)
  ∧ fst (get_native_value (snd (get_native_value w1)))
    = fst (get_native_value w1).
Proof.
  intros Hd Hc. split; [by apply get_native_value_depends|].
  destruct (get_native_value_only_logged w1) as (Hc1 & Hs1 & _).
  apply get_native_value_depends; congruence.
Qed.

Lemma get_native_value_deterministic_witness :
  fst (get_native_value (sample_world (Some sample_battery)))
  = fst (get_native_value
           (snd (super_handle_coordinator_update
                   (snd (logger ERROR "unrelated" []
                           (sample_world (Some sample_battery)))))))
  ∧ fst (get_native_value
           (snd (get_native_value (sample_world (Some sample_battery)))))
    = fst (get_native_value (sample_world (Some sample_battery))).
Proof.
  apply (get_native_value_deterministic
           (sample_world (Some sample_battery))
           (snd (super_handle_coordinator_update
                   (snd (logger ERROR "unrelated" []
                           (sample_world (Some sample_battery)))))));
    reflexivity.
Defined.

(** C9.  [get_native_value] gives [None] for every falsy sub-object,
    [get_extra_state_attributes] goes on for every sub-object that is not
    [None], and there is a falsy sub-object for which the first reports
    nothing while the second still reads an attribute from it. *)
Theorem availability_tests_differ :
  (∀ (w : world) (src : PolestarEntityDataSource) (attr : string),
     has_source_and_attribute (entity_description (w_self w)) src attr →
     data_bool (coordinator_getattr (w_coordinator w) (data_source_value src))
     = false →
     fst (get_native_value w) = Returned VNone)
  ∧ (∀ (w : world) (src : PolestarEntityDataSource) (extra : dict string)
       (o : PyObject),
       has_source_and_extra (entity_description (w_self w)) src extra →
       coordinator_getattr (w_coordinator w) (data_source_value src) = Some o →
       fst (get_extra_state_attributes w)
       = Returned (Some (getattr_or_None o <$> extra)))
  ∧ (∃ (w : world) (src : PolestarEntityDataSource) (attr : string)
       (extra : dict string) (o : PyObject) (k : string) (v : pyval),
       has_source_and_attribute (entity_description (w_self w)) src attr
       ∧ has_source_and_extra (entity_description (w_self w)) src extra
       ∧ coordinator_getattr (w_coordinator w) (data_source_value src) = Some o
       ∧ obj_bool o = false
       ∧ fst (get_native_value w) = Returned VNone
       ∧ (∃ res, fst (get_extra_state_attributes w) = Returned (Some res)
                 ∧ res !! k = Some v ∧ v ≠ VNone)).
Proof.
  split; [|split].
  - intros w src attr Hd Hb.
    apply (get_native_value_unavailable w src attr Hd).
    intros o Ho. left. by rewrite Ho in Hb.
  - intros w src extra o (Hs & He & Hne) Ho.
    destruct (get_extra_state_attributes_run w) as (w' & -> & _).
    unfold extra_state_attributes_of. rewrite Hs, He, Ho.
    unfold dict_bool. rewrite bool_decide_eq_true_2 by done.
    by rewrite collect_attributes_fmap.
  - exists (sample_world (Some sample_falsy_battery)), BATTERY,
      "battery_charge_level_percentage",
      (list_to_map [("status", "charging_status");
                    ("range", "estimated_range");
                    ("soc", "state_of_charge")]),
      sample_falsy_battery, "status", (VStr "Charging").
    split; [by repeat split|].
    split; [repeat split; by vm_compute|].
    do 3 (split; [reflexivity|]).
    eexists. split; [reflexivity|]. split; [reflexivity|discriminate].
Qed.

Lemma availability_tests_differ_witness :
  fst (get_native_value (sample_world (Some sample_falsy_battery)))
  = Returned VNone
  ∧ fst (get_extra_state_attributes (sample_world (Some sample_falsy_battery)))
    = Returned (Some (getattr_or_None sample_falsy_battery
                        <$> list_to_map [("status", "charging_status");
                                         ("range", "estimated_range");
                                         ("soc", "state_of_charge")])).
Proof.
  destruct availability_tests_differ as (Hnative & Hextra & _). split.
  - apply (Hnative (sample_world (Some sample_falsy_battery)) BATTERY
             "battery_charge_level_percentage"); [by repeat split|reflexivity].
  - apply (Hextra (sample_world (Some sample_falsy_battery)) BATTERY _
             sample_falsy_battery); [|reflexivity].
    repeat split. by vm_compute.
Defined.

(** ** Construction and the update callback *)

Lemma or_empty_dict_default r : or_empty_dict r = default ∅ r.
Proof.
  unfold or_empty_dict, opt_dict_bool, dict_bool.
  destruct r as [d|]; simpl; [|done].
  case_bool_decide as Hd; [done|]. by rewrite Hd.
Qed.

Lemma set_fresh_after_get w :
  ∃ w', (r <~ get_extra_state_attributes ;;
         set_attr_extra_state_attributes (or_empty_dict r)) w
        = (Returned tt, w')
        ∧ w_coordinator w' = w_coordinator w
        ∧ entity_description (w_self w') = entity_description (w_self w)
        ∧ entity_id (w_self w') = entity_id (w_self w)
        ∧ _attr_unique_id (w_self w') = _attr_unique_id (w_self w)
        ∧ _attr_translation_key (w_self w') = _attr_translation_key (w_self w)
        ∧ extra_state_attributes_fresh w'.
Proof.
  destruct (get_extra_state_attributes_run w) as (w1 & Hrun & Hc & Hs & _).
  unfold bind. rewrite Hrun. unfold set_attr_extra_state_attributes.
  eexists. split; [reflexivity|]. unfold extra_state_attributes_fresh. simpl.
  rewrite Hc, Hs, or_empty_dict_default. done.
Qed.

Lemma coordinator_update_fresh c w :
  is_Some (_attr_extra_state_attributes (w_self w)) →
  ∃ w', coordinator_update c w = (Returned tt, w')
        ∧ entity_description (w_self w') = entity_description (w_self w)
        ∧ extra_state_attributes_fresh w'.
Proof.
  intros Hsome.
  unfold coordinator_update, _handle_coordinator_update, refresh.
  unfold bind at 1. unfold bind at 1. unfold read_self at 1.
  cbn [w_self]. rewrite bool_decide_eq_true_2 by done.
  unfold bind at 1.
  match goal with |- context [bind get_extra_state_attributes _ ?w0] =>
    destruct (set_fresh_after_get w0) as (w1 & Hrun & Hc & Hd & _ & _ & _ & Hf)
  end.
  rewrite Hrun. unfold super_handle_coordinator_update.
  eexists. split; [reflexivity|]. split; [exact Hd|exact Hf].
Qed.

Lemma updates_keep_fresh refreshes :
  ∀ w, extra_state_attributes_fresh w →
       ∃ w', for_each (λ _ c, coordinator_update c) tt refreshes w
             = (Returned tt, w')
             ∧ entity_description (w_self w') = entity_description (w_self w)
             ∧ extra_state_attributes_fresh w'.
Proof.
  induction refreshes as [|c refreshes IH]; intros w Hf; simpl.
  - by exists w.
  - destruct (coordinator_update_fresh c w) as (w1 & Hrun & Hd1 & Hf1).
    { unfold extra_state_attributes_fresh in Hf. rewrite Hf. by eexists. }
    destruct (IH w1 Hf1) as (w2 & Hrest & Hd2 & Hf2).
    exists w2. unfold bind. rewrite Hrun, Hrest.
    split; [done|]. split; [congruence|done].
Qed.

Lemma PolestarEntity_init_run DOMAIN c d lg n :
  ∃ w, PolestarEntity_init DOMAIN c d lg n = (Returned tt, w)
       ∧ w_coordinator w = c
       ∧ entity_description (w_self w) = d
       ∧ entity_id (w_self w) = entity_id (init_attributes DOMAIN c d)
       ∧ _attr_unique_id (w_self w)
         = _attr_unique_id (init_attributes DOMAIN c d)
       ∧ _attr_translation_key (w_self w)
         = _attr_translation_key (init_attributes DOMAIN c d)
       ∧ (opt_dict_bool (data_extra_state_attributes d) = true →
          extra_state_attributes_fresh w)
       ∧ (opt_dict_bool (data_extra_state_attributes d) = false →
          _attr_extra_state_attributes (w_self w) = None).
Proof.
  unfold PolestarEntity_init. unfold bind at 1. unfold read_self at 1.
  cbn [w_self init_attributes entity_description].
  destruct (opt_dict_bool (data_extra_state_attributes d)) eqn:He.
  - match goal with |- context [bind get_extra_state_attributes _ ?w0] =>
      destruct (set_fresh_after_get w0)
        as (w1 & Hrun & Hc & Hd & Hi & Hu & Ht & Hf)
    end.
    rewrite Hrun. exists w1. by repeat split.
  - eexists. split; [reflexivity|]. by repeat split.
Qed.

(** C6, as amended.  For a descriptor with a non-empty
    [data_extra_state_attributes] mapping, after construction and after
    every coordinator-update callback
    [_attr_extra_state_attributes] is set to a dict: the result of
    [get_extra_state_attributes], with the empty dict standing in for
    [None]. *)
Theorem extra_state_attributes_always_dict
    (DOMAIN : string) (c : PolestarCoordinator)
    (d : PolestarEntityDescription) (lg : list log_record) (n : nat)
    (refreshes : list PolestarCoordinator) :
  opt_dict_bool (data_extra_state_attributes d) = true →
  ∃ (w : world) (r : option (dict pyval)),
    lifecycle DOMAIN c d lg n refreshes = (Returned tt, w)
    ∧ fst (get_extra_state_attributes w) = Returned r
    ∧ _attr_extra_state_attributes (w_self w) = Some (default ∅ r).
Proof.
  intros He. unfold lifecycle.
  destruct (PolestarEntity_init_run DOMAIN c d lg n)
    as (w0 & -> & _ & _ & _ & _ & _ & Hf0 & _).
  destruct (updates_keep_fresh refreshes w0 (Hf0 He)) as (w & -> & _ & Hf).
  exists w. eexists. split; [done|].
  destruct (get_extra_state_attributes_run w) as (w' & -> & _).
  split; [reflexivity|]. exact Hf.
Qed.

Lemma extra_state_attributes_always_dict_witness :
  ∃ (w : world) (r : option (dict pyval)),
    lifecycle "polestar_api" (sample_coordinator None) sample_description [] 0
      [sample_coordinator (Some sample_battery); sample_coordinator None;
       sample_coordinator (Some sample_falsy_battery)]
    = (Returned tt, w)
    ∧ fst (get_extra_state_attributes w) = Returned r
    ∧ _attr_extra_state_attributes (w_self w) = Some (default ∅ r).
Proof.
  apply (extra_state_attributes_always_dict "polestar_api"
           (sample_coordinator None) sample_description [] 0).
  by vm_compute.
Defined.

(** C6 as first stated fails: for a descriptor configured with an empty
    mapping [__init__] does not set [_attr_extra_state_attributes], and the
    callback, finding it unset, leaves it so. *)
Lemma extra_state_attributes_unset_for_empty_mapping :
  ¬ (∀ (DOMAIN : string) (c : PolestarCoordinator)
       (d : PolestarEntityDescription) (extra : dict string)
       (lg : list log_record) (n : nat)
       (refreshes : list PolestarCoordinator),
       data_extra_state_attributes d = Some extra →
       ∃ (w : world) (r : option (dict pyval)),
         lifecycle DOMAIN c d lg n refreshes = (Returned tt, w)
         ∧ fst (get_extra_state_attributes w) = Returned r
         ∧ _attr_extra_state_attributes (w_self w) = Some (default ∅ r)).
Proof.
  intros H.
  destruct (H "polestar_api" (sample_coordinator (Some sample_battery))
              sample_description_empty_mapping ∅ [] 0
              [sample_coordinator (Some sample_battery)] eq_refl)
    as (w & r & Hrun & _ & Hattr).
  assert (_attr_extra_state_attributes
            (w_self (snd (lifecycle "polestar_api"
                            (sample_coordinator (Some sample_battery))
                            sample_description_empty_mapping [] 0
                            [sample_coordinator (Some sample_battery)])))
          = None) as Hnone by reflexivity.
  rewrite Hrun in Hnone. simpl in Hnone. congruence.
Qed.

(** ** Identifiers *)

(** C10.  After construction the identifier strings are determined by the
    coordinator and the descriptor key: [_attr_unique_id] is
    ["polestar_" + vin + "_" + key], [entity_id] is
    [DOMAIN + ".polestar_" + get_short_id() + "_" + key] and
    [_attr_translation_key] is ["polestar_" + key]. *)
Theorem identifiers_determined
    (DOMAIN : string) (c : PolestarCoordinator)
    (d : PolestarEntityDescription) (lg : list log_record) (n : nat) :
  ∃ w : world,
    PolestarEntity_init DOMAIN c d lg n = (Returned tt, w)
    ∧ _attr_unique_id (w_self w) = "polestar_" ++ vin c ++ "_" ++ key d
    ∧ entity_id (w_self w)
      = DOMAIN ++ ".polestar_" ++ short_id c ++ "_" ++ key d
    ∧ _attr_translation_key (w_self w) = "polestar_" ++ key d.
Proof.
  destruct (PolestarEntity_init_run DOMAIN c d lg n)
    as (w & Hrun & _ & _ & Hi & Hu & Ht & _).
  exists w. by repeat split.
Qed.

(** * Further properties *)

(** ** Identifiers across entities *)

Lemma append_inj_length (s1 s2 t1 t2 : string) :
  String.length s1 = String.length s2 →
  s1 ++ t1 = s2 ++ t2 → s1 = s2 ∧ t1 = t2.
Proof.
  revert s2. induction s1 as [|a s1 IH]; intros [|b s2] Hlen Heq;
    simpl in *; try discriminate.
  - done.
  - injection Hlen as Hlen. injection Heq as -> Heq.
    destruct (IH s2 Hlen Heq) as [-> ->]. done.
Qed.

Lemma init_identifiers DOMAIN c d lg n :
  let s := w_self (snd (PolestarEntity_init DOMAIN c d lg n)) in
  entity_id s = DOMAIN ++ ".polestar_" ++ short_id c ++ "_" ++ key d
  ∧ _attr_unique_id s = "polestar_" ++ vin c ++ "_" ++ key d
  ∧ _attr_translation_key s = "polestar_" ++ key d.
Proof.
  destruct (PolestarEntity_init_run DOMAIN c d lg n)
    as (w & -> & _ & _ & Hi & Hu & Ht & _). done.
Qed.

(** Entities built on one coordinator from descriptors with different keys
    get different [entity_id], [_attr_unique_id] and
    [_attr_translation_key]. *)
Theorem identifiers_distinct_for_distinct_keys
    (DOMAIN : string) (c : PolestarCoordinator)
    (d1 d2 : PolestarEntityDescription)
    (lg1 lg2 : list log_record) (n1 n2 : nat) :
  key d1 ≠ key d2 →
  let s1 := w_self (snd (PolestarEntity_init DOMAIN c d1 lg1 n1)) in
  let s2 := w_self (snd (PolestarEntity_init DOMAIN c d2 lg2 n2)) in
  entity_id s1 ≠ entity_id s2
  ∧ _attr_unique_id s1 ≠ _attr_unique_id s2
  ∧ _attr_translation_key s1 ≠ _attr_translation_key s2.
Proof.
  intros Hk s1 s2.
  destruct (init_identifiers DOMAIN c d1 lg1 n1) as (Hi1 & Hu1 & Ht1).
  destruct (init_identifiers DOMAIN c d2 lg2 n2) as (Hi2 & Hu2 & Ht2).
  fold s1 in Hi1, Hu1, Ht1. fold s2 in Hi2, Hu2, Ht2.
  rewrite Hi1, Hi2, Hu1, Hu2, Ht1, Ht2.
  repeat split; intros Heq; apply Hk;
    repeat (apply (inj (String.append _)) in Heq); exact Heq.
Qed.

Lemma identifiers_distinct_for_distinct_keys_witness :
  entity_id (w_self (snd (PolestarEntity_init "polestar_api"
               (sample_coordinator None) sample_description [] 0)))
  ≠ entity_id (w_self (snd (PolestarEntity_init "polestar_api"
                 (sample_coordinator None)
                 (with_data_state_fn
                    {| key := "odometer"; data_source := Some ODOMETER;
                       data_state_attribute := Some "odometer_meters";
                       data_state_fn := None;
                       data_extra_state_attributes := None |} None) [] 0))).
Proof.
  apply (identifiers_distinct_for_distinct_keys "polestar_api"
           (sample_coordinator None) sample_description
           (with_data_state_fn
              {| key := "odometer"; data_source := Some ODOMETER;
                 data_state_attribute := Some "odometer_meters";
                 data_state_fn := None;
                 data_extra_state_attributes := None |} None) [] [] 0 0).
  discriminate.
Defined.

(** For vehicles whose VINs have the same length, [_attr_unique_id]
    determines both the VIN and the descriptor key. *)
Theorem unique_id_determines_vin_and_key
    (DOMAIN1 DOMAIN2 : string) (c1 c2 : PolestarCoordinator)
    (d1 d2 : PolestarEntityDescription)
    (lg1 lg2 : list log_record) (n1 n2 : nat) :
  String.length (vin c1) = String.length (vin c2) →
  _attr_unique_id (w_self (snd (PolestarEntity_init DOMAIN1 c1 d1 lg1 n1)))
  = _attr_unique_id (w_self (snd (PolestarEntity_init DOMAIN2 c2 d2 lg2 n2))) →
  vin c1 = vin c2 ∧ key d1 = key d2.
Proof.
  intros Hlen.
  destruct (init_identifiers DOMAIN1 c1 d1 lg1 n1) as (_ & -> & _).
  destruct (init_identifiers DOMAIN2 c2 d2 lg2 n2) as (_ & -> & _).
  intros Heq. apply (inj (String.append _)) in Heq.
  destruct (append_inj_length _ _ _ _ Hlen Heq) as [Hv Hk].
  split; [done|]. by apply (inj (String.append _)) in Hk.
Qed.

Lemma unique_id_determines_vin_and_key_witness :
  vin (sample_coordinator None) = vin (sample_coordinator (Some sample_battery))
  ∧ key sample_description = key (sample_description_on "estimated_range" None).
Proof.
  apply (unique_id_determines_vin_and_key "polestar_api" "polestar_api"
           (sample_coordinator None) (sample_coordinator (Some sample_battery))
           sample_description (sample_description_on "estimated_range" None)
           [] [] 0 0); reflexivity.
Defined.

(** ** The whole run of an entity *)

Lemma with_extra_state_attributes_same s :
  with_extra_state_attributes s (_attr_extra_state_attributes s) = s.
Proof. by destruct s. Qed.

Lemma cache_extra_state_attributes_run w :
  ∃ w', (r <~ get_extra_state_attributes ;;
         set_attr_extra_state_attributes (or_empty_dict r)) w
        = (Returned tt, w')
        ∧ w_coordinator w' = w_coordinator w
        ∧ w_self w'
          = with_extra_state_attributes (w_self w)
              (Some (default ∅ (extra_state_attributes_of
                                  (w_coordinator w)
                                  (entity_description (w_self w)))))
        ∧ w_state_writes w' = w_state_writes w
        ∧ w_log w `prefix_of` w_log w'.
Proof.
  destruct (get_extra_state_attributes_run w)
    as (w1 & Hrun & Hc & Hs & Hn & Hl).
  unfold bind. rewrite Hrun. unfold set_attr_extra_state_attributes.
  eexists. split; [reflexivity|]. simpl.
  rewrite Hs, or_empty_dict_default. done.
Qed.

Lemma coordinator_update_run c w :
  ∃ w', coordinator_update c w = (Returned tt, w')
        ∧ w_coordinator w' = c
        ∧ w_self w' = entity_after_update c (w_self w)
        ∧ w_state_writes w' = S (w_state_writes w)
        ∧ w_log w `prefix_of` w_log w'
        ∧ (_attr_extra_state_attributes (w_self w) = None →
           w_log w' = w_log w).
Proof.
  unfold coordinator_update, _handle_coordinator_update, refresh.
  unfold bind at 1. unfold bind at 1. unfold read_self at 1.
  cbn [w_self]. unfold entity_after_update.
  destruct (_attr_extra_state_attributes (w_self w)) as [a|] eqn:Ha.
  - rewrite bool_decide_eq_true_2 by (by eexists).
    unfold bind at 1.
    match goal with |- context [bind get_extra_state_attributes _ ?w0] =>
      destruct (cache_extra_state_attributes_run w0)
        as (w1 & Hrun & Hc & Hs & Hn & Hl)
    end.
    rewrite Hrun. unfold super_handle_coordinator_update.
    eexists. split; [reflexivity|]. simpl in *.
    rewrite Hs, Hn. by repeat split.
  - rewrite bool_decide_eq_false_2 by (by intros [? ?]).
    unfold bind, ret, super_handle_coordinator_update. simpl.
    eexists. split; [reflexivity|]. by repeat split.
Qed.

Lemma entity_after_update_frame c s :
  with_extra_state_attributes (entity_after_update c s) None
  = with_extra_state_attributes s None.
Proof. unfold entity_after_update. by destruct (_attr_extra_state_attributes s). Qed.

Lemma entity_after_update_cache c s :
  _attr_extra_state_attributes (entity_after_update c s)
  = match _attr_extra_state_attributes s with
    | Some _ =>
        Some (default ∅ (extra_state_attributes_of c (entity_description s)))
    | None => None
    end.
Proof.
  unfold entity_after_update.
  by destruct (_attr_extra_state_attributes s) eqn:Ha.
Qed.

Lemma final_coordinator_cons c c' refreshes :
  final_coordinator c (c' :: refreshes) = final_coordinator c' refreshes.
Proof.
  unfold final_coordinator.
  destruct refreshes as [|c'' refreshes]; [done|].
  rewrite last_cons. by destruct (last (c'' :: refreshes)) eqn:Hl.
Qed.

Lemma updates_run refreshes :
  ∀ w, ∃ w',
    for_each (λ _ c, coordinator_update c) tt refreshes w = (Returned tt, w')
    ∧ w_coordinator w' = final_coordinator (w_coordinator w) refreshes
    ∧ with_extra_state_attributes (w_self w') None
      = with_extra_state_attributes (w_self w) None
    ∧ w_state_writes w' = w_state_writes w + length refreshes
    ∧ w_log w `prefix_of` w_log w'
    ∧ (_attr_extra_state_attributes (w_self w) = None →
       _attr_extra_state_attributes (w_self w') = None
       ∧ w_log w' = w_log w).
Proof.
  induction refreshes as [|c refreshes IH]; intros w; simpl.
  - exists w. unfold ret. repeat split; try done; lia.
  - destruct (coordinator_update_run c w)
      as (w1 & Hrun & Hc & Hs & Hn & Hl & Hnone).
    destruct (IH w1) as (w2 & Hrest & Hc2 & Hs2 & Hn2 & Hl2 & Hnone2).
    exists w2. unfold bind. rewrite Hrun, Hrest.
    split; [done|]. split; [by rewrite Hc2, Hc, final_coordinator_cons|].
    split; [by rewrite Hs2, Hs, entity_after_update_frame|].
    split; [lia|]. split; [by etrans|].
    intros Ha.
    assert (_attr_extra_state_attributes (w_self w1) = None) as Ha1
      by (by rewrite Hs, entity_after_update_cache, Ha).
    destruct (Hnone2 Ha1) as [-> ->]. split; [done|]. by apply Hnone.
Qed.

Lemma PolestarEntity_init_world DOMAIN c d lg n :
  ∃ w, PolestarEntity_init DOMAIN c d lg n = (Returned tt, w)
       ∧ w_coordinator w = c
       ∧ w_self w
         = (if opt_dict_bool (data_extra_state_attributes d) then
              with_extra_state_attributes (init_attributes DOMAIN c d)
                (Some (default ∅ (extra_state_attributes_of c d)))
            else init_attributes DOMAIN c d)
       ∧ w_state_writes w = n
       ∧ lg `prefix_of` w_log w
       ∧ (opt_dict_bool (data_extra_state_attributes d) = false →
          w_log w = lg).
Proof.
  unfold PolestarEntity_init. unfold bind at 1. unfold read_self at 1.
  cbn [w_self init_attributes entity_description].
  destruct (opt_dict_bool (data_extra_state_attributes d)) eqn:He.
  - match goal with |- context [bind get_extra_state_attributes _ ?w0] =>
      destruct (cache_extra_state_attributes_run w0)
        as (w1 & Hrun & Hc & Hs & Hn & Hl)
    end.
    rewrite Hrun. exists w1. by repeat split.
  - eexists. split; [reflexivity|]. by repeat split.
Qed.

Lemma lifecycle_run DOMAIN c d lg n refreshes :
  ∃ w0 w,
    PolestarEntity_init DOMAIN c d lg n = (Returned tt, w0)
    ∧ lifecycle DOMAIN c d lg n refreshes = (Returned tt, w)
    ∧ w_coordinator w = final_coordinator c refreshes
    ∧ with_extra_state_attributes (w_self w) None = init_attributes DOMAIN c d
    ∧ w_state_writes w = n + length refreshes
    ∧ lg `prefix_of` w_log w
    ∧ (opt_dict_bool (data_extra_state_attributes d) = false →
       _attr_extra_state_attributes (w_self w) = None ∧ w_log w = lg).
Proof.
  unfold lifecycle.
  destruct (PolestarEntity_init_world DOMAIN c d lg n)
    as (w0 & Hinit & Hc0 & Hs0 & Hn0 & Hl0 & Hnone0).
  destruct (updates_run refreshes w0)
    as (w & Hrun & Hc & Hs & Hn & Hl & Hnone).
  exists w0, w. rewrite Hinit, Hrun. split; [done|]. split; [done|].
  split; [by rewrite Hc, Hc0|].
  split.
  { rewrite Hs, Hs0. by destruct (opt_dict_bool _). }
  split; [lia|]. split; [by etrans|].
  intros He. rewrite He in Hs0.
  destruct Hnone as [Ha Hlg]; [by rewrite Hs0|].
  split; [done|]. rewrite Hlg. by apply Hnone0.
Qed.

(** Construction followed by any number of update callbacks never raises,
    whatever the descriptor and the coordinator states, and each callback
    passes the update on to the host exactly once. *)
Theorem lifecycle_never_raises
    (DOMAIN : string) (c : PolestarCoordinator)
    (d : PolestarEntityDescription) (lg : list log_record) (n : nat)
    (refreshes : list PolestarCoordinator) :
  ∃ w : world,
    lifecycle DOMAIN c d lg n refreshes = (Returned tt, w)
    ∧ w_state_writes w = n + length refreshes
    ∧ lg `prefix_of` w_log w.
Proof.
  destruct (lifecycle_run DOMAIN c d lg n refreshes)
    as (w0 & w & _ & Hrun & _ & _ & Hn & Hl & _).
  by exists w.
Qed.

(** Update callbacks leave the descriptor, the three identifier strings and
    the device info as [__init__] set them; the only instance attribute they
    may touch is [_attr_extra_state_attributes]. *)
Theorem lifecycle_keeps_identity
    (DOMAIN : string) (c : PolestarCoordinator)
    (d : PolestarEntityDescription) (lg : list log_record) (n : nat)
    (refreshes : list PolestarCoordinator) :
  let s := w_self (snd (lifecycle DOMAIN c d lg n refreshes)) in
  entity_description s = d
  ∧ entity_id s = DOMAIN ++ ".polestar_" ++ short_id c ++ "_" ++ key d
  ∧ _attr_unique_id s = "polestar_" ++ vin c ++ "_" ++ key d
  ∧ _attr_translation_key s = "polestar_" ++ key d
  ∧ _attr_device_info s
    = {| identifiers := {[ (DOMAIN, vin c) ]};
         manufacturer := "Polestar";
         device_model := model c;
         device_name := name c;
         serial_number := vin c |}.
Proof.
  destruct (lifecycle_run DOMAIN c d lg n refreshes)
    as (w0 & w & _ & -> & _ & Hs & _). simpl.
  pose proof (f_equal entity_description Hs) as Hd.
  pose proof (f_equal entity_id Hs) as Hi.
  pose proof (f_equal _attr_unique_id Hs) as Hu.
  pose proof (f_equal _attr_translation_key Hs) as Ht.
  pose proof (f_equal _attr_device_info Hs) as Hv.
  by repeat split.
Qed.

(** For a descriptor with no extra-attribute mapping (or an empty one),
    [_attr_extra_state_attributes] is never set, neither by [__init__] nor by
    any later callback, and the run writes nothing to the log. *)
Theorem lifecycle_without_mapping
    (DOMAIN : string) (c : PolestarCoordinator)
    (d : PolestarEntityDescription) (lg : list log_record) (n : nat)
    (refreshes : list PolestarCoordinator) :
  opt_dict_bool (data_extra_state_attributes d) = false →
  _attr_extra_state_attributes
    (w_self (snd (lifecycle DOMAIN c d lg n refreshes))) = None
  ∧ w_log (snd (lifecycle DOMAIN c d lg n refreshes)) = lg.
Proof.
  intros He.
  destruct (lifecycle_run DOMAIN c d lg n refreshes)
    as (w0 & w & _ & -> & _ & _ & _ & _ & Hnone).
  by apply Hnone.
Qed.

Lemma lifecycle_without_mapping_witness :
  _attr_extra_state_attributes
    (w_self (snd (lifecycle "polestar_api" (sample_coordinator None)
                    (sample_description_on "estimated_range" None) [] 0
                    [sample_coordinator (Some sample_battery)]))) ≠ None
  ∧ _attr_extra_state_attributes
      (w_self (snd (lifecycle "polestar_api" (sample_coordinator None)
                      {| key := "odometer"; data_source := Some ODOMETER;
                         data_state_attribute := Some "odometer_meters";
                         data_state_fn := None;
                         data_extra_state_attributes := Some ∅ |} [] 0
                      [sample_coordinator (Some sample_battery)]))) = None.
Proof.
  split; [by vm_compute|].
  apply (lifecycle_without_mapping "polestar_api" (sample_coordinator None)
           {| key := "odometer"; data_source := Some ODOMETER;
              data_state_attribute := Some "odometer_meters";
              data_state_fn := None;
              data_extra_state_attributes := Some ∅ |} [] 0
           [sample_coordinator (Some sample_battery)]).
  reflexivity.
Defined.

Lemma extra_state_attributes_of_mapping c d extra :
  data_extra_state_attributes d = Some extra → extra ≠ ∅ →
  default ∅ (extra_state_attributes_of c d)
  = match data_source d with
    | Some src =>
        match coordinator_getattr c (data_source_value src) with
        | Some o => getattr_or_None o <$> extra
        | None => ∅
        end
    | None => ∅
    end.
Proof.
  intros He Hne. unfold extra_state_attributes_of. rewrite He.
  destruct (data_source d) as [src|]; [|done].
  unfold dict_bool. rewrite bool_decide_eq_true_2 by done.
  destruct (coordinator_getattr _ _) as [o|]; [|done].
  simpl. by rewrite collect_attributes_fmap.
Qed.

(** With a non-empty mapping, the cached extra state attributes after a run
    depend on the coordinator state of the last callback only: the mapped
    attributes of its sub-object, or the empty dict when the sub-object is
    [None] or missing or the descriptor names no source.  Earlier coordinator
    states leave no trace. *)
Theorem cached_extra_state_attributes_follow_last_refresh
    (DOMAIN : string) (c : PolestarCoordinator)
    (d : PolestarEntityDescription) (extra : dict string)
    (lg : list log_record) (n : nat)
    (refreshes : list PolestarCoordinator) :
  data_extra_state_attributes d = Some extra →
  extra ≠ ∅ →
  _attr_extra_state_attributes
    (w_self (snd (lifecycle DOMAIN c d lg n refreshes)))
  = Some (match data_source d with
          | Some src =>
              match coordinator_getattr (final_coordinator c refreshes)
                      (data_source_value src) with
              | Some o => getattr_or_None o <$> extra
              | None => ∅
              end
          | None => ∅
          end).
Proof.
  intros He Hne.
  assert (opt_dict_bool (data_extra_state_attributes d) = true) as Hb.
  { rewrite He. simpl. unfold dict_bool. by rewrite bool_decide_eq_true_2. }
  destruct (lifecycle_run DOMAIN c d lg n refreshes)
    as (w0 & w & Hinit & Hrun & Hc & Hs & _).
  rewrite Hrun. simpl.
  destruct (PolestarEntity_init_run DOMAIN c d lg n)
    as (w0' & Hinit' & _ & _ & _ & _ & _ & Hf0 & _).
  assert (w0' = w0) as -> by congruence.
  destruct (updates_keep_fresh refreshes w0 (Hf0 Hb)) as (w' & Hrun' & _ & Hf).
  assert (w' = w) as ->.
  { unfold lifecycle in Hrun. rewrite Hinit in Hrun. congruence. }
  unfold extra_state_attributes_fresh in Hf. rewrite Hf, Hc.
  pose proof (f_equal entity_description Hs) as Hd. simpl in Hd. rewrite Hd.
  by rewrite (extra_state_attributes_of_mapping _ d extra).
Qed.

Lemma cached_extra_state_attributes_follow_last_refresh_witness :
  _attr_extra_state_attributes
    (w_self (snd (lifecycle "polestar_api" (sample_coordinator None)
                    sample_description [] 0
                    [sample_coordinator (Some sample_battery);
                     sample_coordinator None])))
  = Some ∅.
Proof.
  apply (cached_extra_state_attributes_follow_last_refresh "polestar_api"
           (sample_coordinator None) sample_description
           (list_to_map [("status", "charging_status");
                         ("range", "estimated_range");
                         ("soc", "state_of_charge")]) [] 0
           [sample_coordinator (Some sample_battery);
            sample_coordinator None]).
  - reflexivity.
  - by vm_compute.
Defined.

Lemma entity_after_update_twice c c' s :
  entity_after_update c (entity_after_update c' s) = entity_after_update c s.
Proof.
  unfold entity_after_update.
  by destruct (_attr_extra_state_attributes s) eqn:Ha; simpl; rewrite ?Ha.
Qed.

(** Two update callbacks in a row leave the entity as the second one alone
    would: the callback is idempotent for a fixed coordinator state, and a
    later refresh overrides an earlier one. *)
Theorem coordinator_update_last_wins
    (c c' : PolestarCoordinator) (w : world) :
  w_self (snd (coordinator_update c (snd (coordinator_update c' w))))
  = w_self (snd (coordinator_update c w))
  ∧ w_coordinator (snd (coordinator_update c (snd (coordinator_update c' w))))
    = w_coordinator (snd (coordinator_update c w)).
Proof.
  destruct (coordinator_update_run c' w) as (w1 & -> & _ & Hs1 & _).
  destruct (coordinator_update_run c w) as (w2 & -> & Hc2 & Hs2 & _).
  simpl.
  destruct (coordinator_update_run c w1) as (w3 & -> & Hc3 & Hs3 & _).
  simpl. split; [|congruence].
  by rewrite Hs3, Hs1, Hs2, entity_after_update_twice.
Qed.

(** Entities are attached to a device by VIN: the device identifiers of two
    entities coincide exactly when their coordinators have the same VIN,
    whatever the descriptors, and the serial number is that VIN. *)
Theorem device_identified_by_vin
    (DOMAIN : string) (c1 c2 : PolestarCoordinator)
    (d1 d2 : PolestarEntityDescription)
    (lg1 lg2 : list log_record) (n1 n2 : nat) :
  let v1 := _attr_device_info
              (w_self (snd (PolestarEntity_init DOMAIN c1 d1 lg1 n1))) in
  let v2 := _attr_device_info
              (w_self (snd (PolestarEntity_init DOMAIN c2 d2 lg2 n2))) in
  (identifiers v1 = identifiers v2 ↔ vin c1 = vin c2)
  ∧ serial_number v1 = vin c1
  ∧ serial_number v2 = vin c2.
Proof.
  destruct (PolestarEntity_init_world DOMAIN c1 d1 lg1 n1)
    as (w1 & -> & _ & Hs1 & _).
  destruct (PolestarEntity_init_world DOMAIN c2 d2 lg2 n2)
    as (w2 & -> & _ & Hs2 & _).
  simpl. rewrite Hs1, Hs2.
  destruct (opt_dict_bool (data_extra_state_attributes d1)),
           (opt_dict_bool (data_extra_state_attributes d2)); simpl;
    (split; [|done]); (split; [|by intros ->]);
    intros Heq;
    assert ((DOMAIN, vin c1) ∈ ({[ (DOMAIN, vin c2) ]} : gset (string * string)))
      as Hin by (rewrite <- Heq; set_solver);
    apply elem_of_singleton in Hin; congruence.
Qed.

(** ** What the getters log *)

Lemma size_filter_map_to_list {V} (P : string * V → Prop)
    `{∀ x, Decision (P x)} (m : dict V) :
  size (filter P m) = length (filter P (map_to_list m)).
Proof.
  rewrite <- length_map_to_list, map_filter_alt.
  apply Permutation_length, map_to_list_to_map.
  apply (sublist_NoDup _ ((map_to_list m).*1));
    [apply NoDup_fst_map_to_list|].
  apply fmap_sublist, sublist_filter.
Qed.

Lemma logged_app w w' (lg : list log_record) :
  w_log w' = (w_log w ++ lg)%list → logged w w' = lg.
Proof. unfold logged. intros ->. apply drop_app_length. Qed.

Lemma get_native_value_log w src attr :
  has_source_and_attribute (entity_description (w_self w)) src attr →
  w_log (snd (get_native_value w))
  = (w_log w
    ++ match coordinator_getattr (w_coordinator w) (data_source_value src) with
       | Some o =>
           if obj_bool o then
             match obj_attrs o !! attr with
             | None =>
                 [{| level := ERROR;
                     msg := "Invalid state attribute %s.%s for entity %s";
                     args := [data_source_value src; attr;
                              entity_id (w_self w)] |}]
             | Some VNone =>
                 [{| level := DEBUG;
                     msg := "%s.%s not available for entity %s";
                     args := [data_source_value src; attr;
                              entity_id (w_self w)] |}]
             | Some _ => []
             end
           else
             [{| level := DEBUG; msg := "%s not available for entity %s";
                 args := [data_source_value src; entity_id (w_self w)] |}]
       | None =>
           [{| level := DEBUG; msg := "%s not available for entity %s";
               args := [data_source_value src; entity_id (w_self w)] |}]
       end)%list.
Proof.
  intros (Hs & Ha & Ht). unfold get_native_value. run_method.
  rewrite Hs, Ha, Ht, data_source_value_truthy. simpl.
  destruct (coordinator_getattr _ _) as [o|]; simpl; [|done].
  destruct (obj_bool o); simpl; [|done].
  unfold hasattr, getattr_or_None.
  destruct (obj_attrs o !! attr) as [v|]; simpl; [|done].
  destruct v; simpl; by rewrite ?app_nil_r.
Qed.

(** With both source and attribute in the descriptor, a call of
    [get_native_value] logs at most one record; it logs nothing exactly when
    it finds a value other than [None] on a truthy sub-object, and it logs at
    error level exactly when a truthy sub-object lacks the named field. *)
Theorem get_native_value_logging
    (w : world) (src : PolestarEntityDataSource) (attr : string) :
  has_source_and_attribute (entity_description (w_self w)) src attr →
  let lg := logged w (snd (get_native_value w)) in
  w_log (snd (get_native_value w)) = (w_log w ++ lg)%list
  ∧ (length lg ≤ 1)%nat
  ∧ (lg = [] ↔
     ∃ o v, coordinator_getattr (w_coordinator w) (data_source_value src)
            = Some o
            ∧ obj_bool o = true ∧ obj_attrs o !! attr = Some v ∧ v ≠ VNone)
  ∧ ((∃ r, r ∈ lg ∧ level r = ERROR) ↔
     ∃ o, coordinator_getattr (w_coordinator w) (data_source_value src)
          = Some o
          ∧ obj_bool o = true ∧ obj_attrs o !! attr = None).
Proof.
  intros Hd lg. pose proof (get_native_value_log w src attr Hd) as Hlog.
  unfold lg. rewrite (logged_app _ _ _ Hlog). split; [exact Hlog|]. clear.
  destruct (coordinator_getattr _ _) as [o|].
  - destruct (obj_bool o) eqn:Hb.
    + destruct (obj_attrs o !! attr) as [v|] eqn:Hv.
      * assert (v = VNone ∨ v ≠ VNone) as [->|Hn]
          by (destruct v; auto; by right).
        -- simpl. split; [lia|]. set_unfold. split; split.
           ++ done.
           ++ intros (o' & v' & [= <-] & _ & Hv' & Hn). congruence.
           ++ intros (r & [-> | []] & Hl). done.
           ++ intros (o' & [= <-] & _ & Hv'). congruence.
        -- assert (match v with
                   | VNone =>
                       [{| level := DEBUG;
                           msg := "%s.%s not available for entity %s";
                           args := [data_source_value src; attr;
                                    entity_id (w_self w)] |}]
                   | _ => []
                   end = []) as -> by (by destruct v).
           simpl. split; [lia|]. set_unfold. split; split.
           ++ intros _. exists o, v. by repeat split.
           ++ done.
           ++ by intros (r & [] & _).
           ++ intros (o' & [= <-] & _ & Hv'). congruence.
      * simpl. split; [lia|]. set_unfold. split; split.
        -- done.
        -- intros (o' & v' & [= <-] & _ & Hv' & _). congruence.
        -- intros _. by exists o.
        -- intros _. eexists. split; [by left|done].
    + simpl. split; [lia|]. set_unfold. split; split.
      * done.
      * intros (o' & v' & [= <-] & Hb' & _). congruence.
      * intros (r & [-> | []] & Hl). done.
      * intros (o' & [= <-] & Hb' & _). congruence.
  - simpl. split; [lia|]. set_unfold. split; split.
    + done.
    + by intros (o' & v' & [=] & _).
    + intros (r & [-> | []] & Hl). done.
    + by intros (o' & [=] & _).
Qed.

Lemma for_each_extra_state_attributes_log src eid data items :
  ∀ acc w,
    w_log (snd (for_each (extra_state_attribute_step src eid data)
                  acc items w))
    = (w_log w
       ++ concat (extra_state_attribute_log src eid data <$> items))%list.
Proof.
  induction items as [|[k a] items IH]; intros acc w.
  - simpl. by rewrite app_nil_r.
  - cbn [for_each fmap list_fmap concat]. unfold bind at 1.
    assert (∃ r w1,
      extra_state_attribute_step src eid data acc (k, a) w = (Returned r, w1)
      ∧ w_log w1
        = (w_log w ++ extra_state_attribute_log src eid data (k, a))%list)
      as (r & w1 & -> & Hl).
    { unfold extra_state_attribute_step, extra_state_attribute_log. simpl.
      destruct (hasattr data a); simpl.
      - destruct (is_none (getattr_or_None data a)); run_method;
          do 2 eexists; split; try done. by rewrite app_nil_r.
      - run_method. by do 2 eexists. }
    rewrite IH, Hl. by rewrite <- app_assoc.
Qed.

Lemma extra_state_attribute_log_length src eid data items :
  length (concat (extra_state_attribute_log src eid data <$> items))
  = length (filter (attribute_unavailable data) items).
Proof.
  induction items as [|[k a] items IH]; [done|].
  rewrite fmap_cons, filter_cons. cbn [concat]. rewrite length_app, IH.
  assert (length (extra_state_attribute_log src eid data (k, a))
          = if decide (attribute_unavailable data (k, a)) then 1 else 0)
    as ->.
  { destruct (decide _) as [Hu|Hu];
      unfold attribute_unavailable, getattr_or_None in Hu; simpl in Hu;
      unfold extra_state_attribute_log, hasattr, getattr_or_None; simpl;
      destruct (obj_attrs data !! a) as [v|]; simpl in *;
      try done; by destruct v. }
  by destruct (decide _).
Qed.

Lemma extra_state_attribute_log_errors src eid data items :
  length (filter (λ r, level r = ERROR)
            (concat (extra_state_attribute_log src eid data <$> items)))
  = length (filter (attribute_missing data) items).
Proof.
  induction items as [|[k a] items IH]; [done|].
  rewrite fmap_cons, (filter_cons (attribute_missing data)). cbn [concat].
  rewrite filter_app, length_app, IH.
  assert (length (filter (λ r, level r = ERROR)
                    (extra_state_attribute_log src eid data (k, a)))
          = if decide (attribute_missing data (k, a)) then 1 else 0)
    as ->.
  { destruct (decide _) as [Hu|Hu];
      unfold attribute_missing in Hu; simpl in Hu;
      unfold extra_state_attribute_log, hasattr, getattr_or_None; simpl;
      destruct (obj_attrs data !! a) as [v|]; simpl in *;
      try done; by destruct v. }
  by destruct (decide _).
Qed.

(** For a sub-object that is not [None], [get_extra_state_attributes] logs
    one record for every mapped attribute that is missing or [None], and the
    records at error level are as many as the mapped attributes missing on
    the sub-object. *)
Theorem get_extra_state_attributes_logging
    (w : world) (src : PolestarEntityDataSource) (extra : dict string)
    (o : PyObject) :
  has_source_and_extra (entity_description (w_self w)) src extra →
  coordinator_getattr (w_coordinator w) (data_source_value src) = Some o →
  let lg := logged w (snd (get_extra_state_attributes w)) in
  w_log (snd (get_extra_state_attributes w)) = (w_log w ++ lg)%list
  ∧ length lg = size (filter (attribute_unavailable o) extra)
  ∧ length (filter (λ r, level r = ERROR) lg)
    = size (filter (attribute_missing o) extra).
Proof.
  intros (Hs & He & Hne) Ho lg.
  assert (w_log (snd (get_extra_state_attributes w))
          = (w_log w
             ++ concat (extra_state_attribute_log src (entity_id (w_self w)) o
                          <$> map_to_list extra))%list) as Hlog.
  { unfold get_extra_state_attributes. run_method.
    rewrite Hs, He, data_source_value_truthy. simpl.
    unfold dict_bool. rewrite bool_decide_eq_true_2 by done. simpl.
    rewrite Ho.
    pose proof (for_each_extra_state_attributes_log src
                  (entity_id (w_self w)) o (map_to_list extra) ∅ w) as Hl.
    destruct (for_each_extra_state_attributes src (entity_id (w_self w)) o
                (map_to_list extra) ∅ w) as (w' & Hrun & _).
    rewrite Hrun in Hl |- *. exact Hl. }
  unfold lg. rewrite (logged_app _ _ _ Hlog). split; [exact Hlog|].
  rewrite !size_filter_map_to_list.
  split.
  - apply extra_state_attribute_log_length.
  - apply extra_state_attribute_log_errors.
Qed.

Lemma get_extra_state_attributes_logging_witness :
  length (logged (sample_world (Some sample_battery))
            (snd (get_extra_state_attributes
                    (sample_world (Some sample_battery)))))
  = 2
  ∧ length (filter (λ r, level r = ERROR)
              (logged (sample_world (Some sample_battery))
                 (snd (get_extra_state_attributes
                         (sample_world (Some sample_battery))))))
    = 1.
Proof.
  destruct (get_extra_state_attributes_logging
              (sample_world (Some sample_battery)) BATTERY
              (list_to_map [("status", "charging_status");
                            ("range", "estimated_range");
                            ("soc", "state_of_charge")])
              sample_battery) as (_ & Hn & He).
  - repeat split. by vm_compute.
  - reflexivity.
  - split; [rewrite Hn|rewrite He]; by vm_compute.
Defined.

Lemma get_native_value_logging_witness :
  logged (sample_world_of (sample_description_on "state_of_charge" None)
                          (Some sample_battery))
    (snd (get_native_value
            (sample_world_of (sample_description_on "state_of_charge" None)
                             (Some sample_battery))))
  ≠ []
  ∧ logged (sample_world (Some sample_battery))
      (snd (get_native_value (sample_world (Some sample_battery)))) = [].
Proof.
  split.
  - destruct (get_native_value_logging
                (sample_world_of (sample_description_on "state_of_charge" None)
                                 (Some sample_battery))
                BATTERY "state_of_charge") as (_ & _ & Hnil & _).
    + by repeat split.
    + intros Hl. apply Hnil in Hl as (o & v & Ho & _ & Hv & _).
      injection Ho as <-. discriminate Hv.
  - apply (get_native_value_logging (sample_world (Some sample_battery))
             BATTERY "battery_charge_level_percentage").
    + by repeat split.
    + exists sample_battery, (VInt 80). by repeat split.
Defined.

(** ** How the two getters relate *)

Lemma get_extra_state_attributes_result w src extra o :
  has_source_and_extra (entity_description (w_self w)) src extra →
  coordinator_getattr (w_coordinator w) (data_source_value src) = Some o →
  fst (get_extra_state_attributes w)
  = Returned (Some (getattr_or_None o <$> extra)).
Proof.
  intros (Hs & He & Hne) Ho.
  destruct (get_extra_state_attributes_run w) as (w' & -> & _).
  unfold extra_state_attributes_of. rewrite Hs, He, Ho.
  unfold dict_bool. rewrite bool_decide_eq_true_2 by done.
  by rewrite collect_attributes_fmap.
Qed.

(** When the mapping lists the attribute that the state is read from, the
    sub-object is truthy and no transform is configured, the native value is
    the entry of the extra state attributes under that key, [None]
    included. *)
Theorem native_value_agrees_with_extra_attribute
    (w : world) (src : PolestarEntityDataSource) (attr : string)
    (extra : dict string) (k : string) (o : PyObject) :
  has_source_and_attribute (entity_description (w_self w)) src attr →
  has_source_and_extra (entity_description (w_self w)) src extra →
  data_state_fn (entity_description (w_self w)) = None →
  extra !! k = Some attr →
  coordinator_getattr (w_coordinator w) (data_source_value src) = Some o →
  obj_bool o = true →
  ∃ (res : dict pyval) (v : pyval),
    fst (get_extra_state_attributes w) = Returned (Some res)
    ∧ fst (get_native_value w) = Returned v
    ∧ res !! k = Some v.
Proof.
  intros Hd Hx Hfn Hk Ho Hb.
  exists (getattr_or_None o <$> extra), (getattr_or_None o attr).
  split; [by apply (get_extra_state_attributes_result w src)|]. split.
  - unfold getattr_or_None.
    destruct (obj_attrs o !! attr) as [v|] eqn:Hv; simpl.
    + destruct (decide (v = VNone)) as [->|Hn].
      * apply (get_native_value_unavailable w src attr Hd).
        intros o' Ho'. right. right. congruence.
      * rewrite (get_native_value_available w src attr o v Hd Ho Hb Hv Hn).
        unfold transformed. by rewrite Hfn.
    + apply (get_native_value_unavailable w src attr Hd).
      intros o' Ho'. right. left. congruence.
  - by rewrite lookup_fmap, Hk.
Qed.

Lemma native_value_agrees_with_extra_attribute_witness :
  ∃ (res : dict pyval) (v : pyval),
    fst (get_extra_state_attributes
           (sample_world_of (sample_description_on "charging_status" None)
                            (Some sample_battery)))
    = Returned (Some res)
    ∧ fst (get_native_value
             (sample_world_of (sample_description_on "charging_status" None)
                              (Some sample_battery)))
      = Returned v
    ∧ res !! "status" = Some v.
Proof.
  apply (native_value_agrees_with_extra_attribute
           (sample_world_of (sample_description_on "charging_status" None)
                            (Some sample_battery))
           BATTERY "charging_status"
           (list_to_map [("status", "charging_status");
                         ("range", "estimated_range");
                         ("soc", "state_of_charge")])
           "status" sample_battery);
    try reflexivity; repeat split; by vm_compute.
Defined.



(** ** Each entity reads its own data source only *)

#[global] Instance data_source_value_inj : Inj (=) (=) data_source_value.
Proof. by intros [] [] Heq. Qed.

(** Both getters look at the coordinator through the one attribute the
    descriptor's source names: a refresh that leaves that attribute as it was
    changes neither result. *)
Theorem getters_read_only_their_source
    (w : world) (c' : PolestarCoordinator) :
  (∀ src, data_source (entity_description (w_self w)) = Some src →
          coordinator_getattr c' (data_source_value src)
          = coordinator_getattr (w_coordinator w) (data_source_value src)) →
  fst (get_native_value (snd (refresh c' w))) = fst (get_native_value w)
  ∧ fst (get_extra_state_attributes (snd (refresh c' w)))
    = fst (get_extra_state_attributes w).
Proof.
  intros Hsame. split.
  - unfold get_native_value, refresh. run_method.
    destruct (data_source _) as [src|]; [|done].
    destruct (data_state_attribute _) as [attr|]; [|done].
    destruct (negb _); simpl; [done|].
    rewrite (Hsame src eq_refl).
    repeat (case_match; simpl; try reflexivity).
  - destruct (get_extra_state_attributes_run w) as (w1 & -> & _).
    destruct (get_extra_state_attributes_run (snd (refresh c' w)))
      as (w2 & -> & _).
    simpl. unfold extra_state_attributes_of.
    destruct (data_source _) as [src|]; [|done].
    by rewrite (Hsame src eq_refl).
Qed.

(** Assigning the sub-object of another data source on the coordinator is
    invisible to the entity: the enum members name distinct attributes. *)
Theorem other_source_is_invisible
    (w : world) (src src' : PolestarEntityDataSource) (o : option PyObject) :
  data_source (entity_description (w_self w)) = Some src →
  src' ≠ src →
  let w' := snd (refresh (coordinator_setattr (w_coordinator w)
                            (data_source_value src') o) w) in
  fst (get_native_value w') = fst (get_native_value w)
  ∧ fst (get_extra_state_attributes w') = fst (get_extra_state_attributes w).
Proof.
  intros Hs Hne w'.
  assert (∀ s, data_source (entity_description (w_self w)) = Some s →
               coordinator_getattr
                 (coordinator_setattr (w_coordinator w)
                    (data_source_value src') o) (data_source_value s)
               = coordinator_getattr (w_coordinator w) (data_source_value s))
    as Hsame.
  { intros s Hs'. assert (s = src) as -> by congruence.
    unfold coordinator_getattr, coordinator_setattr. simpl.
    rewrite lookup_insert_ne; [done|].
    intros Heq. by apply (inj data_source_value) in Heq. }
  unfold w'. split.
  - unfold get_native_value, refresh. run_method. rewrite Hs.
    destruct (data_state_attribute _) as [attr|]; [|done].
    destruct (negb _); simpl; [done|].
    rewrite (Hsame src Hs).
    repeat (case_match; simpl; try reflexivity).
  - destruct (get_extra_state_attributes_run w) as (w1 & -> & _).
    destruct (get_extra_state_attributes_run
                (snd (refresh (coordinator_setattr (w_coordinator w)
                                 (data_source_value src') o) w)))
      as (w2 & -> & _).
    simpl. unfold extra_state_attributes_of. rewrite Hs.
    by rewrite (Hsame src Hs).
Qed.

Lemma getters_read_only_their_source_witness :
  fst (get_native_value
         (snd (refresh
                 {| vin := "YSMYKEAE7RB000000"; model := "Polestar 4";
                    name := "Renamed"; short_id := "0000";
                    attrs := {[ "car_battery_data" := Some sample_battery ]} |}
                 (sample_world (Some sample_battery)))))
  = fst (get_native_value (sample_world (Some sample_battery)))
  ∧ fst (get_extra_state_attributes
           (snd (refresh
                   {| vin := "YSMYKEAE7RB000000"; model := "Polestar 4";
                      name := "Renamed"; short_id := "0000";
                      attrs :=
                        {[ "car_battery_data" := Some sample_battery ]} |}
                   (sample_world (Some sample_battery)))))
    = fst (get_extra_state_attributes (sample_world (Some sample_battery))).
Proof.
  apply (getters_read_only_their_source (sample_world (Some sample_battery))).
  intros src [= <-]. reflexivity.
Defined.

Lemma other_source_is_invisible_witness :
  fst (get_native_value
         (snd (refresh (coordinator_setattr
                          (sample_coordinator (Some sample_battery))
                          "car_odometer_data" (Some sample_odometer))
                 (sample_world (Some sample_battery)))))
  = fst (get_native_value (sample_world (Some sample_battery)))
  ∧ fst (get_extra_state_attributes
           (snd (refresh (coordinator_setattr
                            (sample_coordinator (Some sample_battery))
                            "car_odometer_data" (Some sample_odometer))
                   (sample_world (Some sample_battery)))))
    = fst (get_extra_state_attributes (sample_world (Some sample_battery))).
Proof.
  apply (other_source_is_invisible (sample_world (Some sample_battery))
           BATTERY ODOMETER (Some sample_odometer)).
  - reflexivity.
  - discriminate.
Defined.

(** ** Which descriptors can be constructed *)

(** Construction succeeds with a data source exactly when the attribute name
    is a non-empty string, and without one exactly when the attribute name is
    [None] or the empty string; the descriptor returned carries the arguments
    unchanged, and the only exception is [ValueError]. *)
Theorem construction_succeeds_iff
    (k : string) (src : option PolestarEntityDataSource)
    (attr : option string) (fn : option (pyval → pyval))
    (extra : option (dict string)) :
  let d := {| key := k; data_source := src; data_state_attribute := attr;
              data_state_fn := fn; data_extra_state_attributes := extra |} in
  (new_PolestarEntityDescription k src attr fn extra = Returned d
   ∨ ∃ m, new_PolestarEntityDescription k src attr fn extra
          = Raised (ValueError m))
  ∧ (new_PolestarEntityDescription k src attr fn extra = Returned d
     ↔ match src with
       | Some _ => ∃ a, attr = Some a ∧ a ≠ ""
       | None => attr = None ∨ attr = Some ""
       end).
Proof.
  unfold new_PolestarEntityDescription, post_init. simpl.
  destruct src as [s|]; [rewrite data_source_bool_Some|];
    destruct attr as [[|ch a]|]; simpl; (split; [eauto|]); split;
    try done; try (by intros (a' & [=] & ?)); try (by intros [[=]|[=]]);
    try (by intros (a' & [= <-] & ?)); eauto.
Qed.

(** [get_extra_state_attributes] never raises, and it returns [None] exactly
    when the descriptor names no source, has no mapping or an empty one, or
    the coordinator's sub-object is [None] or missing. *)
Theorem get_extra_state_attributes_None_iff (w : world) :
  ∃ r : option (dict pyval),
    fst (get_extra_state_attributes w) = Returned r
    ∧ (r = None
       ↔ data_source (entity_description (w_self w)) = None
         ∨ opt_dict_bool
             (data_extra_state_attributes (entity_description (w_self w)))
           = false
         ∨ ∃ src, data_source (entity_description (w_self w)) = Some src
                  ∧ coordinator_getattr (w_coordinator w)
                      (data_source_value src) = None).
Proof.
  destruct (get_extra_state_attributes_run w) as (w' & -> & _).
  eexists. split; [reflexivity|]. unfold extra_state_attributes_of.
  destruct (data_source _) as [src|]; [|by split; [left|]].
  destruct (data_extra_state_attributes _) as [extra|];
    [|by split; [right; left|]].
  simpl. destruct (dict_bool extra) eqn:Hb; [|by split; [right; left|]].
  destruct (coordinator_getattr _ _) as [o|] eqn:Ho.
  - split; [done|]. intros [|[|(src' & [= <-] & Ho')]]; congruence.
  - split; [|done]. intros _. right. right. by exists src.
Qed.
